(** * Orders store (orders_db.py): model and verification

    A shallow embedding of the [OrdersDB] class of
    [Helper Files/orders_db.py]: the SQLite store it drives (the two
    tables of its schema, with the constraints the schema declares), the
    Python control flow around it (exceptions, [try]/[except], the
    connection used as a context manager) and the methods of the class,
    followed by the properties of the methods.

    Conventions.
    - A method is a computation in the monad [M]: it takes the mutable
      state and returns either a raised exception or a value, with the
      state it left behind.
    - The SQL statements the methods send are pure functions on
      [database], written from the statement text and the schema.
    - What the surroundings decide (clock readings, statements that fail
      for reasons outside the program) is an explicit input. *)

From Stdlib Require Import ZArith String List Ascii Lia.
From stdpp Require Import base option list gmap strings.

Local Open Scope string_scope.
Local Open Scope list_scope.
Local Open Scope Z_scope.

(** ** Python exceptions, logging levels *)

(** The exception classes that occur; every one is a subclass of
    [Exception].  The [sqlite3] ones are siblings: an
    [except sqlite3.OperationalError] clause catches the first and none of
    the others. *)
Inductive exn : Type :=
| OperationalError (msg : string)
| IntegrityError (msg : string)
| ProgrammingError (msg : string)
| DatabaseError (msg : string)
| AssertionError (msg : string)
| TypeError (msg : string)
| KeyError (key : string).

Definition is_OperationalError (e : exn) : bool :=
  match e with OperationalError _ => true | _ => false end.

Inductive level : Type := DEBUG | INFO | WARNING | ERROR | CRITICAL.

(** The numeric value the [logging] module gives each level. *)
Definition level_no (l : level) : Z :=
  match l with
  | DEBUG => 10 | INFO => 20 | WARNING => 30 | ERROR => 40 | CRITICAL => 50
  end.

(** ** The store *)

(** A row of [program_runs]: [id INTEGER PRIMARY KEY AUTOINCREMENT],
    [run_time TIMESTAMP NOT NULL DEFAULT CURRENT_TIMESTAMP],
    [weekday INTEGER]. *)
Record run_row : Type := RunRow {
  run_id : Z;
  run_time : string;
  run_weekday : Z
}.

(** A row of [orders]: [order_id TEXT PRIMARY KEY], the two dates,
    [buyer_name TEXT NOT NULL], [last_update] (defaults to
    CURRENT_TIMESTAMP), [date_added TEXT NOT NULL] and
    [run INTEGER NOT NULL REFERENCES program_runs (id) ON DELETE CASCADE]. *)
Record order_row : Type := OrderRow {
  order_id : string;
  purchase_date : string;
  payments_date : string;
  buyer_name : string;
  last_update : string;
  date_added : string;
  run : Z
}.

(** A database file.  A table is [None] until it is created; the rows
    are kept in insertion order.  [seq_program_runs] is the entry of
    [sqlite_sequence] that AUTOINCREMENT maintains. *)
Record database : Type := Database {
  tbl_program_runs : option (list run_row);
  tbl_orders : option (list order_row);
  seq_program_runs : Z
}.

Definition empty_database : database := Database None None 0.

(** ** The mutable state of one [OrdersDB] instance

    [con_db] is the content of the live store behind [self.con],
    [con_closed] tells whether [self.con.close()] was called, [files] are
    the other database files (the backups) by path, [log] the records
    passed to [logging], oldest first.  [faults] scripts the surroundings:
    each call into [sqlite3] consumes the head of the list and fails with
    the exception found there, if any; an empty list means nothing fails
    for outside reasons any more. *)
Record state : Type := State {
  con_db : database;
  con_closed : bool;
  files : gmap string database;
  log : list (level * string);
  faults : list (option exn)
}.

Definition set_db (d : database) (s : state) : state :=
  State d (con_closed s) (files s) (log s) (faults s).
Definition set_closed (b : bool) (s : state) : state :=
  State (con_db s) b (files s) (log s) (faults s).
Definition set_files (f : gmap string database) (s : state) : state :=
  State (con_db s) (con_closed s) f (log s) (faults s).
Definition set_log (l : list (level * string)) (s : state) : state :=
  State (con_db s) (con_closed s) (files s) l (faults s).
Definition set_faults (f : list (option exn)) (s : state) : state :=
  State (con_db s) (con_closed s) (files s) (log s) f.

(** ** The monad of methods: state and exceptions *)

Definition M (A : Type) : Type := state → (exn + A) * state.

Definition ret {A} (a : A) : M A := λ s, (inr a, s).
Definition raise {A} (e : exn) : M A := λ s, (inl e, s).
Definition bind {A B} (m : M A) (k : A → M B) : M B :=
  λ s, match m s with
       | (inr a, s') => k a s'
       | (inl e, s') => (inl e, s')
       end.

Declare Scope py_scope.
Delimit Scope py_scope with py.
Notation "x <- m ;; k" := (bind m (λ x, k))
  (at level 100, m at next level, right associativity) : py_scope.
Notation "m ;;; k" := (bind m (λ _, k))
  (at level 100, right associativity) : py_scope.
Local Open Scope py_scope.

(** [logging.<level>(msg)]: the message is kept as its template, without
    the values interpolated into the f-string. *)
Definition logging (l : level) (msg : string) : M unit :=
  λ s, (inr tt, set_log (log s ++ [(l, msg)]) s).

(** [try: body except ...: handler].  [handler e] is [None] when no
    [except] clause matches [e], which then propagates. *)
Definition try_except {A} (body : M A) (handler : exn → option (M A)) : M A :=
  λ s, match body s with
       | (inr a, s') => (inr a, s')
       | (inl e, s') =>
           match handler e with
           | Some h => h s'
           | None => (inl e, s')
           end
       end.

Definition closed_msg : string := "Cannot operate on a closed database.".

(** [with self.con: body].  No transaction is open when a block is
    entered (every data-changing statement of the class sits inside such
    a block), so the transaction that the first INSERT or DELETE of the
    body opens starts from the store as it is at entry.  Leaving the
    block normally commits; leaving it by an exception rolls the store
    back to what it was at entry and lets the exception go on.  Commit
    and rollback both refuse a closed connection. *)
Definition with_con {A} (body : M A) : M A :=
  λ s, match body s with
       | (inr a, s') =>
           if con_closed s' then (inl (ProgrammingError closed_msg), s')
           else (inr a, s')
       | (inl e, s') =>
           if con_closed s' then (inl (ProgrammingError closed_msg), s')
           else (inl e, set_db (con_db s) s')
       end.

(** The pieces of a call into [sqlite3]: the connection must be open
    ([ProgrammingError] otherwise), the surroundings may make the call
    fail, and the statement itself runs on the store. *)
Definition check_open : M unit :=
  λ s, if con_closed s then (inl (ProgrammingError closed_msg), s)
       else (inr tt, s).

Definition env_fault : M unit :=
  λ s, let s1 := set_faults (tail (faults s)) s in
       match head (faults s) with
       | Some (Some e) => (inl e, s1)
       | _ => (inr tt, s1)
       end.

Definition run_stmt {A} (stmt : database → exn + (A * database)) : M A :=
  λ s, match stmt (con_db s) with
       | inl e => (inl e, s)
       | inr (a, d) => (inr a, set_db d s)
       end.

(** One call that sends a statement over [self.con]
    ([self.con.execute], or [self.con.cursor()], [cur.execute] and the
    [fetch] that follows). *)
Definition execute {A} (stmt : database → exn + (A * database)) : M A :=
  check_open ;;; env_fault ;;; run_stmt stmt.

(** [self.con.close()] *)
Definition con_close : M unit := λ s, (inr tt, set_closed true s).

(** ** Dates and clock readings *)

(** A Python [datetime] (naive, local time). *)
Record datetime : Type := DateTime {
  year : Z; month : Z; day : Z;
  hour : Z; minute : Z; second : Z
}.

(** What the clock says when it is read: [datetime.today()] in Python,
    CURRENT_TIMESTAMP in SQLite (UTC, as text [YYYY-MM-DD HH:MM:SS]) and
    [julianday('now', 'localtime')], held the way SQLite holds it, as a
    whole number of milliseconds since the Julian epoch. *)
Record clock : Type := Clock {
  today : datetime;
  current_timestamp : string;
  julianday_now_localtime : Z
}.

Definition ms_per_day : Z := 86400000.

Definition digit (n : Z) : ascii := ascii_of_nat (48 + Z.to_nat (n mod 10)).
Definition zfill2 (n : Z) : string :=
  String (digit (n / 10)) (String (digit n) "").
Definition zfill4 (n : Z) : string :=
  String (digit (n / 1000)) (String (digit (n / 100)) (zfill2 n)).

(** [d.strftime('%Y-%m-%d')] *)
Definition strftime_ymd (d : datetime) : string :=
  zfill4 (year d) +:+ "-" +:+ zfill2 (month d) +:+ "-" +:+ zfill2 (day d).

(** [datetime.weekday(d)], as the standard library computes it: the
    proleptic Gregorian ordinal of the date, shifted, modulo 7
    (Monday is 0). *)
Definition is_leap (y : Z) : bool :=
  (y mod 4 =? 0) && (negb (y mod 100 =? 0) || (y mod 400 =? 0)).
Definition days_before_year (y : Z) : Z :=
  let p := y - 1 in p * 365 + p / 4 - p / 100 + p / 400.
Definition days_before_month (y m : Z) : Z :=
  nth (Z.to_nat m) [-1; 0; 31; 59; 90; 120; 151; 181; 212; 243; 273; 304; 334] 0
  + (if (2 <? m) && is_leap y then 1 else 0).
Definition toordinal (d : datetime) : Z :=
  days_before_year (year d) + days_before_month (year d) (month d) + day d.
Definition weekday (d : datetime) : Z := (toordinal d + 6) mod 7.

(** [s.split(' ')[0]]: what comes before the first space. *)
Fixpoint split_space_first (s : string) : string :=
  match s with
  | EmptyString => EmptyString
  | String c r =>
      if Ascii.eqb c " "%char then EmptyString
      else String c (split_space_first r)
  end.

(** ** The SQL statements

    Each is [database → exn + (result * database)]: [inl] is the
    exception [sqlite3] raises, [inr] the rows fetched and the store
    after the statement. *)

Definition no_such_table (t : string) : exn :=
  OperationalError ("no such table: " +:+ t).

(** [CREATE TABLE program_runs (...)] *)
Definition sql_create_program_runs (d : database) : exn + (unit * database) :=
  match tbl_program_runs d with
  | Some _ => inl (OperationalError "table program_runs already exists")
  | None => inr (tt, Database (Some []) (tbl_orders d) (seq_program_runs d))
  end.

(** [CREATE TABLE orders (...)] *)
Definition sql_create_orders (d : database) : exn + (unit * database) :=
  match tbl_orders d with
  | Some _ => inl (OperationalError "table orders already exists")
  | None => inr (tt, Database (tbl_program_runs d) (Some []) (seq_program_runs d))
  end.

(** [SELECT order_id FROM orders], fetched with [fetchall] and projected
    to the first column. *)
Definition sql_select_order_ids (d : database) : exn + (list string * database) :=
  match tbl_orders d with
  | None => inl (no_such_table "orders")
  | Some rows => inr (order_id <$> rows, d)
  end.

(** AUTOINCREMENT: one more than the largest id the table holds or has
    ever held. *)
Definition max_run_id (rows : list run_row) : Z :=
  foldr Z.max 0 (run_id <$> rows).
Definition next_run_id (d : database) (rows : list run_row) : Z :=
  Z.max (seq_program_runs d) (max_run_id rows) + 1.

(** [INSERT INTO program_runs (run_time, weekday) VALUES (:run_time, :weekday)];
    with [run_time] left out the column default, CURRENT_TIMESTAMP, is
    what the caller passes here. *)
Definition sql_insert_run (rt : string) (wd : Z) (d : database)
  : exn + (unit * database) :=
  match tbl_program_runs d with
  | None => inl (no_such_table "program_runs")
  | Some rows =>
      let i := next_run_id d rows in
      inr (tt, Database (Some (rows ++ [RunRow i rt wd])) (tbl_orders d) i)
  end.

(** [SELECT id, run_time FROM program_runs ORDER BY run_time DESC LIMIT 1]
    with [fetchone].  Text is compared byte by byte.  Among rows with the
    same greatest [run_time] SQL does not say which comes first; the one
    inserted first is taken here. *)
Fixpoint latest_run (rows : list run_row) : option run_row :=
  match rows with
  | [] => None
  | r :: rest =>
      match latest_run rest with
      | Some r' => if String.ltb (run_time r) (run_time r') then Some r' else Some r
      | None => Some r
      end
  end.

Definition sql_select_latest_run (d : database)
  : exn + (option (Z * string) * database) :=
  match tbl_program_runs d with
  | None => inl (no_such_table "program_runs")
  | Some rows => inr ((λ r, (run_id r, run_time r)) <$> latest_run rows, d)
  end.

(** [INSERT INTO orders (order_id, purchase_date, payments_date,
    buyer_name, date_added, run) VALUES (...)].  [rn] is [None] when
    Python passes [None] for [:run].  [now] fills [last_update].  With
    [PRAGMA foreign_keys = 1] the statement is not even prepared when the
    parent table is missing.  Then the schema's constraints: [run] NOT
    NULL, [order_id] unique, and [run] must be the id of a row of
    [program_runs]. *)
Definition sql_insert_order (now : string) (oid pd pay buyer added : string)
    (rn : option Z) (d : database) : exn + (unit * database) :=
  match tbl_orders d, tbl_program_runs d with
  | None, _ => inl (no_such_table "orders")
  | Some _, None => inl (no_such_table "main.program_runs")
  | Some rows, Some runs =>
      match rn with
      | None => inl (IntegrityError "NOT NULL constraint failed: orders.run")
      | Some r =>
          if bool_decide (oid ∈ order_id <$> rows)
          then inl (IntegrityError "UNIQUE constraint failed: orders.order_id")
          else if bool_decide (r ∈ run_id <$> runs)
          then inr (tt, Database (tbl_program_runs d)
                          (Some (rows ++ [OrderRow oid pd pay buyer now added r]))
                          (seq_program_runs d))
          else inl (IntegrityError "FOREIGN KEY constraint failed")
      end
  end.

(** [DELETE FROM program_runs WHERE id = :run]; ON DELETE CASCADE takes
    the orders of the run with it. *)
Definition sql_delete_run (i : Z) (d : database) : exn + (unit * database) :=
  match tbl_program_runs d with
  | None => inl (no_such_table "program_runs")
  | Some runs =>
      inr (tt, Database (Some (filter (λ r, run_id r ≠ i) runs))
                 (filter (λ o, run o ≠ i) <$> tbl_orders d)
                 (seq_program_runs d))
  end.

Section Sqlite.

(** SQLite's reading of a time string: the Julian day of [julianday(t)]
    in milliseconds, or [None] (SQL NULL) when the text is no time. *)
Variable julianday : string → option Z.

(** [CAST(julianday('now', 'localtime') - julianday(run_time) AS INTEGER)]:
    the difference in days with its fraction cut off (towards zero); NULL
    when [run_time] does not parse.  [julianday] returns a double; for
    dates of the common era from the year 1030 on both values lie in
    [2^21, 2^22), their difference is exact and each is off by less than
    half a millisecond, so the cut-off double equals the quotient
    below. *)
Definition age_days (now : Z) (r : run_row) : option Z :=
  (λ jd, Z.quot (now - jd) ms_per_day) <$> julianday (run_time r).

(** The WHERE clause of the stale-run query; a NULL comparison selects
    nothing. *)
Definition is_old_run (now archive_days : Z) (r : run_row) : bool :=
  match age_days now r with
  | Some a => archive_days <? a
  | None => false
  end.

(** [SELECT id FROM program_runs WHERE CAST(...) > :archive_days] *)
Definition sql_select_old_runs (now archive_days : Z) (d : database)
  : exn + (list Z * database) :=
  match tbl_program_runs d with
  | None => inl (no_such_table "program_runs")
  | Some runs =>
      inr (run_id <$> List.filter (is_old_run now archive_days) runs, d)
  end.

End Sqlite.

(** ** The module and the class *)

Definition ORDERS_ARCHIVE_DAYS : Z := 14.
Definition DATABASE_PATH : string := "amzn_orders.db".
Definition BACKUP_DB_BEFORE_NAME : string := "amzn_orders_b4lrun.db".
Definition BACKUP_DB_AFTER_NAME : string := "amzn_orders_lrun.db".

(** What executing the module binds once and for all.  A default
    argument is evaluated when its [def] is executed: the
    [datetime.today()] in the signature of [get_today_weekday_int] is
    read from the clock while the class body runs, and the value is kept
    with the function. *)
Record module_env : Type := ModuleEnv {
  date_arg_default : datetime
}.

Definition import_module (clk : clock) : module_env :=
  ModuleEnv (today clk).

(** An order as the caller passes it: a [dict] from field names to
    strings. *)
Abbreviation order_dict := (gmap string string).

(** The attributes of an instance that never change after [__init__]. *)
Record OrdersDB : Type := Self {
  orders : list order_dict;
  db_path : string;
  db_backup_b4_path : string;
  db_backup_after_path : string
}.

(** [d[k]] on a [dict] *)
Definition getitem (d : order_dict) (k : string) : M string :=
  match d !! k with
  | Some v => ret v
  | None => raise (KeyError k)
  end.

(** [for x in l: body] *)
Fixpoint for_each {A} (l : list A) (body : A → M unit) : M unit :=
  match l with
  | [] => ret tt
  | x :: rest => body x ;;; for_each rest body
  end.

(** [[x for x in l if cond]] *)
Fixpoint comprehension_if {A} (l : list A) (cond : A → M bool) : M (list A) :=
  match l with
  | [] => ret []
  | x :: rest =>
      b <- cond x ;;
      tl <- comprehension_if rest cond ;;
      ret (if b then x :: tl else tl)
  end.

(** [x not in l], where [l] may be [None] *)
Definition not_in (x : string) (l : option (list string)) : M bool :=
  match l with
  | None => raise (TypeError "argument of type 'NoneType' is not iterable")
  | Some ids => ret (negb (bool_decide (x ∈ ids)))
  end.

(** The [except] clauses of the class. *)
Definition except_OperationalError {A} (h : M A) : exn → option (M A) :=
  λ e, if is_OperationalError e then Some h else None.
Definition except_Exception {A} (h : M A) : exn → option (M A) :=
  λ _, Some h.
Definition except_OperationalError_or_Exception {A} (h1 h2 : M A)
  : exn → option (M A) :=
  λ e, if is_OperationalError e then Some h1 else Some h2.

(** The argument [run_time_default] of [_insert_new_run]: [True], or a
    time stamp to store. *)
Inductive run_time_arg : Type :=
| RunTimeTrue
| RunTimeGiven (run_time : string).

Section Methods.

Variable julianday : string → option Z.

Definition __create_schema : M unit :=
  try_except (with_con (execute sql_create_program_runs))
    (except_OperationalError
       (logging DEBUG "program_runs table already created. Error: {e}")) ;;;
  try_except (with_con (execute sql_create_orders))
    (except_OperationalError
       (logging DEBUG "orders table already created. Error: {e}")) ;;;
  logging DEBUG "database tables are in place and ready to be used".

Definition _get_order_ids_in_db : M (option (list string)) :=
  try_except
    (order_id_lst_in_db <-
       with_con
         (lst <- execute sql_select_order_ids ;;
          logging DEBUG
            "Before inserting new orders, orders table contains {len(order_id_lst_in_db)} entries" ;;;
          ret lst) ;;
     ret (Some order_id_lst_in_db))
    (except_OperationalError
       (logging CRITICAL
          "Failed to retrieve order_ids as list from orders table. Syntax error: {e}" ;;;
        ret None)).

Definition get_today_weekday_int (env : module_env) (date_arg : option datetime) : Z :=
  weekday (default (date_arg_default env) date_arg) + 1.

Definition _insert_new_run (clk : clock) (wd : Z) (run_time_default : run_time_arg)
  : M unit :=
  try_except
    (with_con
       match run_time_default with
       | RunTimeTrue =>
           execute (sql_insert_run (current_timestamp clk) wd) ;;;
           logging DEBUG
             "Added new run to program_runs table. Inserted with weekday: {weekday}"
       | RunTimeGiven rt =>
           execute (sql_insert_run rt wd) ;;;
           logging DEBUG
             "Added new run to program_runs with hardcoded run_time: {run_time_default}. Inserted with weekday: {weekday}"
       end)
    (except_Exception
       (logging CRITICAL "Failed to insert new run to program_runs table. Error: {e}")).

Definition _get_current_run_id (clk : clock) : M (option Z) :=
  try_except
    (with_con
       (row <- execute sql_select_latest_run ;;
        match row with
        | None => raise (TypeError "cannot unpack non-iterable NoneType object")
        | Some (rid, rt) =>
            let run_time_date := split_space_first rt in
            if String.eqb run_time_date (strftime_ymd (today clk))
            then logging DEBUG "Returning new run id: {run_id}" ;;; ret (Some rid)
            else raise (AssertionError "fetched run_time ({run_time_date}) date is not today")
        end))
    (except_OperationalError
       (logging ERROR "Syntax error in query trying to fetch current run id. Error: {e}" ;;;
        ret None)).

Definition insert_new_order (clk : clock) (oid pd pay buyer added : string)
    (rn : option Z) : M unit :=
  try_except
    (with_con
       (execute (sql_insert_order (current_timestamp clk) oid pd pay buyer added rn)) ;;;
     logging DEBUG "Order {order_id} added to db successfully; run: {run_id} buyer: {buyer_name}")
    (except_OperationalError_or_Exception
       (logging ERROR "Order {order_id} insertion failed. Syntax error: {e}")
       (logging ERROR "Unknown error while inserting order {order_id} data to orders table. Error: {e}")).

Definition insert_multiple_orders (clk : clock) (ords : list order_dict)
    (rn : option Z) : M unit :=
  let added := strftime_ymd (today clk) in
  for_each ords
    (λ od,
       oid <- getitem od "order-id" ;;
       pd <- getitem od "purchase-date" ;;
       pay <- getitem od "payments-date" ;;
       buyer <- getitem od "buyer-name" ;;
       insert_new_order clk oid pd pay buyer added rn ;;;
       logging DEBUG
         "Successfully added order: {order_id} to database. Buyer: {buyer}, purchase_date {purchase_date}") ;;;
  logging INFO "{len(orders)} new orders were successfully added to database at run: {run_id}".

Definition __get_old_runs_ids (clk : clock) (archive_days : Z) : M (option (list Z)) :=
  try_except
    (old_run_ids <-
       with_con
         (execute (sql_select_old_runs julianday (julianday_now_localtime clk) archive_days)) ;;
     logging DEBUG "Identified old run ids: {old_run_ids}, added more than {archive_days} days ago" ;;;
     ret (Some old_run_ids))
    (except_OperationalError
       (logging ERROR "Failed to retrieve ids from program_runs table. Syntax error: {e}" ;;;
        ret None)).

Definition _flush_old_orders (clk : clock) (archive_days : Z) : M unit :=
  del_run_ids <- __get_old_runs_ids clk archive_days ;;
  try_except
    (with_con
       match del_run_ids with
       | None => raise (TypeError "'NoneType' object is not iterable")
       | Some ids => for_each ids (λ rid, execute (sql_delete_run rid))
       end ;;;
     logging INFO "Deleted old orders (cascade) from orders table where run_id = {del_run_ids}")
    (except_OperationalError_or_Exception
       (logging ERROR "Orders could not be deleted, passed run_ids: {del_run_ids}. Syntax error: {e}")
       (logging ERROR "Unknown error while deleting orders to orders table based on run_ids {del_run_ids}. Error: {e}")).

(** [_backup_db]: [sqlite3.connect] opens the target (creating an empty
    file when there is none), [self.con.backup] copies the live store
    over it. *)
Definition connect_backup (path : string) : M unit :=
  env_fault ;;;
  λ s, (inr tt,
        match files s !! path with
        | Some _ => s
        | None => set_files (<[path := empty_database]> (files s)) s
        end).

Definition con_backup (path : string) : M unit :=
  check_open ;;; env_fault ;;;
  λ s, (inr tt, set_files (<[path := con_db s]> (files s)) s).

Definition _backup_db (backup_db_path : string) : M unit :=
  connect_backup backup_db_path ;;;
  con_backup backup_db_path ;;;
  logging INFO "New database backup {name} created on: {now} location: {backup_db_path}".

Definition get_new_orders_only (self : OrdersDB) : M (list order_dict) :=
  orders_in_db <- _get_order_ids_in_db ;;
  new_orders <-
    comprehension_if (orders self)
      (λ order_data, oid <- getitem order_data "order-id" ;; not_in oid orders_in_db) ;;
  logging INFO "Returning {len(new_orders)}/{len(self.orders)} new/loaded orders for further processing" ;;;
  match orders_in_db with
  | None => raise (TypeError "object of type 'NoneType' has no len()")
  | Some _ => logging DEBUG "Database currently holds {len(orders_in_db)} order records"
  end ;;;
  con_close ;;;
  ret new_orders.

Definition add_orders_to_db (env : module_env) (clk : clock) (self : OrdersDB) : M unit :=
  _backup_db (db_backup_b4_path self) ;;;
  _insert_new_run clk (get_today_weekday_int env None) RunTimeTrue ;;;
  new_run_id <- _get_current_run_id clk ;;
  insert_multiple_orders clk (orders self) new_run_id ;;;
  _flush_old_orders clk ORDERS_ARCHIVE_DAYS ;;;
  _backup_db (db_backup_after_path self) ;;;
  con_close.

End Methods.

(** [os.path.join(a, b)] on POSIX, for a relative [b]. *)
Fixpoint ends_with_slash (a : string) : bool :=
  match a with
  | EmptyString => false
  | String c EmptyString => Ascii.eqb c "/"%char
  | String _ r => ends_with_slash r
  end.

Definition os_path_join (a b : string) : string :=
  match a with
  | EmptyString => b
  | _ => if ends_with_slash a then a +:+ b else a +:+ "/" +:+ b
  end.

(** [__get_db_paths], with the directory [get_output_dir()] returns as
    an argument, and [__init__]: connect to the live store, switch
    foreign keys on, make sure the schema is there. *)
Definition __get_db_paths (output_dir : string) (ords : list order_dict) : OrdersDB :=
  Self ords
       (os_path_join output_dir DATABASE_PATH)
       (os_path_join output_dir BACKUP_DB_BEFORE_NAME)
       (os_path_join output_dir BACKUP_DB_AFTER_NAME).

Definition __init__ (output_dir : string) (ords : list order_dict) : M OrdersDB :=
  env_fault ;;;
  execute (λ d, inr (tt, d)) ;;;
  __create_schema ;;;
  ret (__get_db_paths output_dir ords).

(** The state in which [__init__] starts on a store file with content
    [d]. *)
Definition fresh_state (d : database) (fs : gmap string database)
    (flt : list (option exn)) : state :=
  State d false fs [] flt.

(** ** A reading of time strings for the examples

    [julianday] for texts of the form [YYYY-MM-DD HH:MM:SS], the form
    CURRENT_TIMESTAMP writes, computed the way SQLite computes a Julian
    day from a civil date; other texts are not read. *)
Definition digit_val (c : ascii) : option Z :=
  let n := Z.of_nat (nat_of_ascii c) in
  if (48 <=? n) && (n <=? 57) then Some (n - 48) else None.

Fixpoint digits_val (s : string) (acc : Z) : option Z :=
  match s with
  | EmptyString => Some acc
  | String c r =>
      match digit_val c with
      | Some v => digits_val r (10 * acc + v)
      | None => None
      end
  end.

Definition civil_to_jd_ms (Y Mo D h mi sec : Z) : Z :=
  let '(y, m) := if Mo <=? 2 then (Y - 1, Mo + 12) else (Y, Mo) in
  let A := y / 100 in
  let B := 2 - A + A / 4 in
  let X1 := 36525 * (y + 4716) / 100 in
  let X2 := 306001 * (m + 1) / 10000 in
  (2 * (X1 + X2 + D + B) - 3049) * (ms_per_day / 2)
  + h * 3600000 + mi * 60000 + sec * 1000.

Definition julianday_iso (s : string) : option Z :=
  if negb (Nat.eqb (String.length s) 19) then None
  else if negb ((substring 4 1 s =? "-")%string && (substring 7 1 s =? "-")%string
                && (substring 10 1 s =? " ")%string && (substring 13 1 s =? ":")%string
                && (substring 16 1 s =? ":")%string) then None
  else
    match digits_val (substring 0 4 s) 0, digits_val (substring 5 2 s) 0,
          digits_val (substring 8 2 s) 0, digits_val (substring 11 2 s) 0,
          digits_val (substring 14 2 s) 0, digits_val (substring 17 2 s) 0 with
    | Some Y, Some Mo, Some D, Some h, Some mi, Some sec =>
        Some (civil_to_jd_ms Y Mo D h mi sec)
    | _, _, _, _, _, _ => None
    end.

(** ** The operations of the class, as one type

    Used to speak of "every operation": [run_op] performs the call and
    keeps the state it leaves, whether it returned or raised. *)
Inductive op : Type :=
| Op_create_schema
| Op_get_order_ids_in_db
| Op_insert_new_run (clk : clock) (wd : Z) (rt : run_time_arg)
| Op_get_current_run_id (clk : clock)
| Op_insert_new_order (clk : clock) (oid pd pay buyer added : string) (rn : option Z)
| Op_insert_multiple_orders (clk : clock) (ords : list order_dict) (rn : option Z)
| Op_flush_old_orders (clk : clock) (archive_days : Z)
| Op_backup_db (path : string)
| Op_get_new_orders_only (self : OrdersDB)
| Op_add_orders_to_db (env : module_env) (clk : clock) (self : OrdersDB).

Definition run_op (julianday : string → option Z) (o : op) (s : state) : state :=
  match o with
  | Op_create_schema => (__create_schema s).2
  | Op_get_order_ids_in_db => (_get_order_ids_in_db s).2
  | Op_insert_new_run clk wd rt => (_insert_new_run clk wd rt s).2
  | Op_get_current_run_id clk => (_get_current_run_id clk s).2
  | Op_insert_new_order clk oid pd pay buyer added rn =>
      (insert_new_order clk oid pd pay buyer added rn s).2
  | Op_insert_multiple_orders clk ords rn => (insert_multiple_orders clk ords rn s).2
  | Op_flush_old_orders clk days => (_flush_old_orders julianday clk days s).2
  | Op_backup_db path => (_backup_db path s).2
  | Op_get_new_orders_only self => (get_new_orders_only self s).2
  | Op_add_orders_to_db env clk self => (add_orders_to_db julianday env clk self s).2
  end.

Definition run_ops (julianday : string → option Z) (os : list op) (s : state) : state :=
  foldl (λ s o, run_op julianday o s) s os.

(** ** Notions the properties are stated with *)

(** The order identifiers stored, in table order. *)
Definition order_ids (d : database) : list string :=
  order_id <$> default [] (tbl_orders d).

(** Each order identifier is stored at most once. *)
Definition unique_order_ids (d : database) : Prop := NoDup (order_ids d).

(** A candidate record is new with respect to the stored identifiers
    [S]: it has an identifier, and no element of [S] is equal to it. *)
Definition is_new (S : list string) (c : order_dict) : Prop :=
  match c !! "order-id" with
  | Some k => k ∉ S
  | None => False
  end.

#[global] Instance is_new_dec S c : Decision (is_new S c) :=
  match c !! "order-id" as o
        return Decision (match o with Some k => k ∉ S | None => False end) with
  | Some k => _
  | None => _
  end.

(** The records [get_new_orders_only] can read. *)
Definition has_order_id (c : order_dict) : Prop := is_Some (c !! "order-id").

(** The records [insert_multiple_orders] can read: the four keys it
    looks up are there. *)
Definition well_keyed (c : order_dict) : Prop :=
  is_Some (c !! "order-id") ∧ is_Some (c !! "purchase-date") ∧
  is_Some (c !! "payments-date") ∧ is_Some (c !! "buyer-name").

(** One row of a batch, tried on its own: the store after the INSERT
    when it is accepted, the store as it was when it is refused. *)
Definition attempt_insert (clk : clock) (rn : option Z) (d : database)
    (c : order_dict) : database :=
  match sql_insert_order (current_timestamp clk)
          (default "" (c !! "order-id")) (default "" (c !! "purchase-date"))
          (default "" (c !! "payments-date")) (default "" (c !! "buyer-name"))
          (strftime_ymd (today clk)) rn d with
  | inr (_, d') => d'
  | inl _ => d
  end.

(** The age of a run in whole days, the fraction cut off, is strictly
    greater than [days]; a run whose time stamp SQLite cannot read has
    no age. *)
Definition run_age_exceeds (julianday : string → option Z) (now days : Z)
    (r : run_row) : Prop :=
  match julianday (run_time r) with
  | Some jd => days < Z.quot (now - jd) ms_per_day
  | None => False
  end.

#[global] Instance run_age_exceeds_dec julianday now days r :
  Decision (run_age_exceeds julianday now days r) :=
  match julianday (run_time r) as o
        return Decision (match o with
                         | Some jd => days < Z.quot (now - jd) ms_per_day
                         | None => False
                         end) with
  | Some jd => _
  | None => _
  end.

(** The next call into [sqlite3] does not fail for outside reasons. *)
Definition no_fault_next (s : state) : Prop :=
  ∀ e, head (faults s) ≠ Some (Some e).

(** The store after the runs [ids] are deleted one after the other. *)
Definition delete_runs (ids : list Z) (d : database) : database :=
  foldl (λ d i, match sql_delete_run i d with inr (_, d') => d' | inl _ => d end) d ids.

(** ** Example data *)

Definition order_A1 : order_dict :=
  {[ "order-id" := "A1"; "purchase-date" := "2024-01-01";
     "payments-date" := "2024-01-02"; "buyer-name" := "Bob" ]}.

Definition order_A2 : order_dict :=
  {[ "order-id" := "A2"; "purchase-date" := "2024-01-01";
     "payments-date" := "2024-01-03"; "buyer-name" := "Eve" ]}.

(** Monday 1 January 2024, ten o'clock local time, nine o'clock UTC. *)
Definition clk_jan1 : clock :=
  Clock (DateTime 2024 1 1 10 0 0) "2024-01-01 09:00:00"
        (civil_to_jd_ms 2024 1 1 10 0 0).

Definition run_jan1 : run_row := RunRow 1 "2024-01-01 09:00:00" 1.

Definition row_A1 : order_row :=
  OrderRow "A1" "2024-01-01" "2024-01-02" "Bob" "2024-01-01 09:00:00" "2024-01-01" 1.

(** A store that holds the run of 1 January and the order A1 under it. *)
Definition db_A1 : database := Database (Some [run_jan1]) (Some [row_A1]) 1.

Definition st_A1 : state := fresh_state db_A1 ∅ [].
(** A second record with the identifier of [order_A2], and one whose
    identifier differs from A1 in case only. *)
Definition order_A2b : order_dict :=
  {[ "order-id" := "A2"; "purchase-date" := "2024-01-01";
     "payments-date" := "2024-01-04"; "buyer-name" := "Ann" ]}.

Definition order_a1 : order_dict :=
  {[ "order-id" := "a1"; "purchase-date" := "2024-01-01";
     "payments-date" := "2024-01-02"; "buyer-name" := "Bob" ]}.

Definition self_of (ords : list order_dict) : OrdersDB := __get_db_paths "/out" ords.
(** Tuesday 16 January 2024, nine o'clock local time, and a store with
    two runs: one written fifteen days before that moment to the
    second, one fourteen days before, each with one order. *)
Definition clk_jan16 : clock :=
  Clock (DateTime 2024 1 16 9 0 0) "2024-01-16 08:00:00"
        (civil_to_jd_ms 2024 1 16 9 0 0).

Definition run_jan2 : run_row := RunRow 2 "2024-01-02 09:00:00" 2.

Definition row_A2 : order_row :=
  OrderRow "A2" "2024-01-01" "2024-01-03" "Eve" "2024-01-02 09:00:00" "2024-01-02" 2.

Definition db_two_runs : database :=
  Database (Some [run_jan1; run_jan2]) (Some [row_A1; row_A2]) 2.

Definition st_two_runs (flt : list (option exn)) : state :=
  fresh_state db_two_runs ∅ flt.
(** Thursday 1 February 2024, nine o'clock local time: both runs of
    [db_two_runs] are more than fourteen days old. *)
Definition clk_feb1 : clock :=
  Clock (DateTime 2024 2 1 9 0 0) "2024-02-01 08:00:00"
        (civil_to_jd_ms 2024 2 1 9 0 0).

Definition database_is_locked : exn := OperationalError "database is locked".
Definition disk_io_error : exn := OperationalError "disk I/O error".
(** Half past midnight on Tuesday 2 January 2024 in a zone one hour
    ahead of UTC: CURRENT_TIMESTAMP still reads 1 January. *)
Definition clk_jan2_east : clock :=
  Clock (DateTime 2024 1 2 0 30 0) "2024-01-01 23:30:00"
        (civil_to_jd_ms 2024 1 2 0 30 0).

(** A store with the two tables and no rows, just opened. *)
Definition db_schema : database := Database (Some []) (Some []) 0.
Definition st_schema (flt : list (option exn)) : state := fresh_state db_schema ∅ flt.
Definition unable_to_open : exn := OperationalError "unable to open database file".

(** A statement preserves the property [P] of the store; a computation
    neither closes (or reopens) the connection nor breaks [P]. *)
Definition stmt_keeps (P : database → Prop) {A}
    (stmt : database → exn + (A * database)) : Prop :=
  ∀ d a d', stmt d = inr (a, d') → P d → P d'.

Definition keeps (P : database → Prop) {A} (m : M A) : Prop :=
  ∀ s, con_closed (m s).2 = con_closed s ∧ (P (con_db s) → P (con_db (m s).2)).

(** A computation closes the connection when it returns and leaves it
    as it was when it raises. *)
Definition closes_on_return {A} (m : M A) : Prop :=
  ∀ s, match m s with
       | (inr _, s') => con_closed s' = true
       | (inl _, s') => con_closed s' = con_closed s
       end.

(** ** Further notions *)

(** The run identifiers stored, in table order. *)
Definition run_ids (d : database) : list Z :=
  run_id <$> default [] (tbl_program_runs d).

(** The runs are well numbered: no identifier is stored twice, and none
    exceeds the counter AUTOINCREMENT keeps. *)
Definition runs_wf (d : database) : Prop :=
  NoDup (run_ids d) ∧ Forall (λ i, i ≤ seq_program_runs d) (run_ids d).

(** No order is an orphan: the run it names is stored. *)
Definition no_orphans (d : database) : Prop :=
  ∀ o, o ∈ default [] (tbl_orders d) → run o ∈ run_ids d.

(** A computation, which may close the connection, does not break the
    property [P] of the store, whether it returns or raises. *)
Definition preserves (P : database → Prop) {A} (m : M A) : Prop :=
  ∀ s, P (con_db s) → P (con_db (m s).2).

(** A computation writes no file. *)
Definition same_files {A} (m : M A) : Prop :=
  ∀ s, files (m s).2 = files s.

(** * Properties *)

(** ** Running computations *)

Lemma bind_inr {A B} (m : M A) (k : A → M B) s a s' :
  m s = (inr a, s') → bind m k s = k a s'.
Proof. intros E. unfold bind. by rewrite E. Qed.

Lemma bind_inl {A B} (m : M A) (k : A → M B) s e s' :
  m s = (inl e, s') → bind m k s = (inl e, s').
Proof. intros E. unfold bind. by rewrite E. Qed.

Lemma no_fault_next_env s :
  no_fault_next s → env_fault s = (inr tt, set_faults (tail (faults s)) s).
Proof.
  intros H. unfold env_fault.
  destruct (head (faults s)) as [[e|]|] eqn:E; try done.
  by destruct (H e).
Qed.

Lemma execute_ok {A} (stmt : database → exn + (A * database)) s a d :
  con_closed s = false → no_fault_next s → stmt (con_db s) = inr (a, d) →
  execute stmt s = (inr a, set_db d (set_faults (tail (faults s)) s)).
Proof.
  intros Ho Hf Hs. unfold execute, bind, check_open. rewrite Ho.
  rewrite (no_fault_next_env s Hf). unfold run_stmt. simpl. by rewrite Hs.
Qed.

Lemma execute_stmt_fails {A} (stmt : database → exn + (A * database)) s e :
  con_closed s = false → no_fault_next s → stmt (con_db s) = inl e →
  execute stmt s = (inl e, set_faults (tail (faults s)) s).
Proof.
  intros Ho Hf Hs. unfold execute, bind, check_open. rewrite Ho.
  rewrite (no_fault_next_env s Hf). unfold run_stmt. simpl. by rewrite Hs.
Qed.

Lemma execute_fault {A} (stmt : database → exn + (A * database)) s e fs :
  con_closed s = false → faults s = Some e :: fs →
  execute stmt s = (inl e, set_faults fs s).
Proof.
  intros Ho Hf. unfold execute, bind, check_open, env_fault. rewrite Ho, Hf. done.
Qed.

Lemma execute_closed {A} (stmt : database → exn + (A * database)) s :
  con_closed s = true →
  execute stmt s = (inl (ProgrammingError closed_msg), s).
Proof. intros Ho. unfold execute, bind, check_open. by rewrite Ho. Qed.

(** ** What every method leaves alone

    For a property [P] of the store that each statement of the class
    preserves, no method but the two that end with [self.con.close()]
    closes the connection or breaks [P], whether it returns or raises. *)
Section Keeps.

Variable P : database → Prop.

#[local] Abbreviation stmt_keeps := (stmt_keeps P).
#[local] Abbreviation keeps := (keeps P).

Lemma keeps_ret {A} (a : A) : keeps (ret a).
Proof. by intros s. Qed.

Lemma keeps_raise {A} e : keeps (@raise A e).
Proof. by intros s. Qed.

Lemma keeps_bind {A B} (m : M A) (k : A → M B) :
  keeps m → (∀ a, keeps (k a)) → keeps (bind m k).
Proof.
  intros Hm Hk s. destruct (Hm s) as [Hc0 Hp0]. unfold bind.
  destruct (m s) as [[e|a] s1]; simpl in *; [done|].
  destruct (Hk a s1) as [Hc Hp]. split; [congruence | tauto].
Qed.

Lemma keeps_logging l msg : keeps (logging l msg).
Proof. by intros s. Qed.

Lemma keeps_try_except {A} (body : M A) handler :
  keeps body → (∀ e h, handler e = Some h → keeps h) →
  keeps (try_except body handler).
Proof.
  intros Hb Hh s. destruct (Hb s) as [Hc0 Hp0]. unfold try_except.
  destruct (body s) as [[e|a] s1]; simpl in *; [|done].
  destruct (handler e) as [h|] eqn:E; [|done].
  destruct (Hh e h E s1) as [Hc Hp]. split; [congruence | tauto].
Qed.

Lemma keeps_try_OperationalError {A} (body h : M A) :
  keeps body → keeps h → keeps (try_except body (except_OperationalError h)).
Proof.
  intros Hb Hh. apply keeps_try_except; [done|].
  intros e h'. unfold except_OperationalError. by destruct (is_OperationalError e); intros [= <-].
Qed.

Lemma keeps_try_Exception {A} (body h : M A) :
  keeps body → keeps h → keeps (try_except body (except_Exception h)).
Proof.
  intros Hb Hh. apply keeps_try_except; [done|]. by intros e h' [= <-].
Qed.

Lemma keeps_try_OperationalError_or_Exception {A} (body h1 h2 : M A) :
  keeps body → keeps h1 → keeps h2 →
  keeps (try_except body (except_OperationalError_or_Exception h1 h2)).
Proof.
  intros Hb H1 H2. apply keeps_try_except; [done|].
  intros e h'. unfold except_OperationalError_or_Exception.
  by destruct (is_OperationalError e); intros [= <-].
Qed.

Lemma keeps_with_con {A} (body : M A) : keeps body → keeps (with_con body).
Proof.
  intros Hb s. destruct (Hb s) as [Hc0 Hp0]. unfold with_con.
  destruct (body s) as [[e|a] s1]; simpl in *;
    destruct (con_closed s1) eqn:E; simpl; rewrite ?E; tauto.
Qed.

Lemma keeps_check_open : keeps check_open.
Proof. intros s. unfold check_open. by destruct (con_closed s) eqn:E. Qed.

Lemma keeps_env_fault : keeps env_fault.
Proof. intros s. unfold env_fault. by destruct (head (faults s)) as [[e|]|]. Qed.

Lemma keeps_run_stmt {A} (stmt : database → exn + (A * database)) :
  stmt_keeps stmt → keeps (run_stmt stmt).
Proof.
  intros H s. unfold run_stmt.
  destruct (stmt (con_db s)) as [e|[a d]] eqn:E; simpl; [done|].
  split; [done|]. by apply (H _ _ _ E).
Qed.

Lemma keeps_execute {A} (stmt : database → exn + (A * database)) :
  stmt_keeps stmt → keeps (execute stmt).
Proof.
  intros H. unfold execute.
  apply keeps_bind; [apply keeps_check_open|intros _].
  apply keeps_bind; [apply keeps_env_fault|intros _].
  by apply keeps_run_stmt.
Qed.

Lemma keeps_for_each {A} (l : list A) body :
  (∀ x, keeps (body x)) → keeps (for_each l body).
Proof.
  intros H. induction l as [|x l IH]; simpl.
  - apply keeps_ret.
  - apply keeps_bind; [apply H | by intros _].
Qed.

Lemma keeps_comprehension_if {A} (l : list A) cond :
  (∀ x, keeps (cond x)) → keeps (comprehension_if l cond).
Proof.
  intros H. induction l as [|x l IH]; simpl.
  - apply keeps_ret.
  - apply keeps_bind; [apply H | intros b].
    apply keeps_bind; [done | intros tl]. apply keeps_ret.
Qed.

Lemma keeps_getitem d k : keeps (getitem d k).
Proof. unfold getitem. destruct (d !! k); [apply keeps_ret | apply keeps_raise]. Qed.

Lemma keeps_not_in x l : keeps (not_in x l).
Proof. destruct l; [apply keeps_ret | apply keeps_raise]. Qed.

Lemma keeps_connect_backup path : keeps (connect_backup path).
Proof.
  unfold connect_backup. apply keeps_bind; [apply keeps_env_fault|intros _].
  intros s. by destruct (files s !! path).
Qed.

Lemma keeps_con_backup path : keeps (con_backup path).
Proof.
  unfold con_backup. apply keeps_bind; [apply keeps_check_open|intros _].
  apply keeps_bind; [apply keeps_env_fault|intros _]. by intros s.
Qed.

(** The statements that only read. *)
Lemma stmt_keeps_select_order_ids : stmt_keeps sql_select_order_ids.
Proof.
  intros d a d'. unfold sql_select_order_ids.
  destruct (tbl_orders d); [|done]. by intros [= _ <-].
Qed.

Lemma stmt_keeps_select_latest_run : stmt_keeps sql_select_latest_run.
Proof.
  intros d a d'. unfold sql_select_latest_run.
  destruct (tbl_program_runs d); [|done]. by intros [= _ <-].
Qed.

Lemma stmt_keeps_select_old_runs jd now days :
  stmt_keeps (sql_select_old_runs jd now days).
Proof.
  intros d a d'. unfold sql_select_old_runs.
  destruct (tbl_program_runs d); [|done]. by intros [= _ <-].
Qed.

(** The statements that write are assumed to preserve [P]. *)
Hypothesis P_create_program_runs : stmt_keeps sql_create_program_runs.
Hypothesis P_create_orders : stmt_keeps sql_create_orders.
Hypothesis P_insert_run : ∀ rt wd, stmt_keeps (sql_insert_run rt wd).
Hypothesis P_insert_order :
  ∀ now oid pd pay buyer added rn,
    stmt_keeps (sql_insert_order now oid pd pay buyer added rn).
Hypothesis P_delete_run : ∀ i, stmt_keeps (sql_delete_run i).

Ltac keeps_step :=
  first
    [ apply keeps_ret | apply keeps_raise | apply keeps_logging
    | apply keeps_getitem | apply keeps_not_in
    | apply keeps_connect_backup | apply keeps_con_backup
    | apply keeps_execute;
      first [ apply stmt_keeps_select_order_ids | apply stmt_keeps_select_latest_run
            | apply stmt_keeps_select_old_runs | apply P_create_program_runs
            | apply P_create_orders | apply P_insert_run | apply P_insert_order
            | apply P_delete_run ]
    | apply keeps_bind; [|intros ?]
    | apply keeps_try_OperationalError
    | apply keeps_try_Exception
    | apply keeps_try_OperationalError_or_Exception
    | apply keeps_with_con
    | apply keeps_for_each; intros ?
    | apply keeps_comprehension_if; intros ?
    | match goal with
      | |- keeps (match ?x with _ => _ end) => destruct x
      | |- keeps (let '(_, _) := ?x in _) => destruct x
      end ].

Lemma keeps_create_schema : keeps __create_schema.
Proof. unfold __create_schema. repeat keeps_step. Qed.

Lemma keeps_get_order_ids_in_db : keeps _get_order_ids_in_db.
Proof. unfold _get_order_ids_in_db. repeat keeps_step. Qed.

Lemma keeps_insert_new_run clk wd rt : keeps (_insert_new_run clk wd rt).
Proof. unfold _insert_new_run. repeat keeps_step. Qed.

Lemma keeps_get_current_run_id clk : keeps (_get_current_run_id clk).
Proof. unfold _get_current_run_id. repeat keeps_step. Qed.

Lemma keeps_insert_new_order clk oid pd pay buyer added rn :
  keeps (insert_new_order clk oid pd pay buyer added rn).
Proof. unfold insert_new_order. repeat keeps_step. Qed.

Lemma keeps_insert_multiple_orders clk ords rn :
  keeps (insert_multiple_orders clk ords rn).
Proof.
  unfold insert_multiple_orders. repeat keeps_step.
Qed.

Lemma keeps_get_old_runs_ids jd clk days : keeps (__get_old_runs_ids jd clk days).
Proof. unfold __get_old_runs_ids. repeat keeps_step. Qed.

Lemma keeps_flush_old_orders jd clk days : keeps (_flush_old_orders jd clk days).
Proof.
  unfold _flush_old_orders.
  apply keeps_bind; [apply keeps_get_old_runs_ids|intros ids].
  repeat keeps_step.
Qed.

Lemma keeps_backup_db path : keeps (_backup_db path).
Proof. unfold _backup_db. repeat keeps_step. Qed.

End Keeps.

(** ** Uniqueness of order identifiers *)

Lemma unique_create_program_runs : stmt_keeps unique_order_ids sql_create_program_runs.
Proof.
  intros d a d'. unfold sql_create_program_runs.
  destruct (tbl_program_runs d); [done|]. by intros [= _ <-].
Qed.

Lemma unique_create_orders : stmt_keeps unique_order_ids sql_create_orders.
Proof.
  intros d a d'. unfold sql_create_orders.
  destruct (tbl_orders d); [done|]. intros [= _ <-] _. apply NoDup_nil_2.
Qed.

Lemma unique_insert_run rt wd : stmt_keeps unique_order_ids (sql_insert_run rt wd).
Proof.
  intros d a d'. unfold sql_insert_run.
  destruct (tbl_program_runs d); [|done]. by intros [= _ <-].
Qed.

Lemma unique_insert_order now oid pd pay buyer added rn :
  stmt_keeps unique_order_ids (sql_insert_order now oid pd pay buyer added rn).
Proof.
  intros d a d'. unfold sql_insert_order, unique_order_ids, order_ids.
  destruct (tbl_orders d) as [rows|]; [|done].
  destruct (tbl_program_runs d) as [runs|]; [|done].
  destruct rn as [r|]; [|done].
  case_bool_decide as Hin; [done|].
  case_bool_decide; [|done].
  intros [= _ <-] Hnd. simpl in *. rewrite fmap_app. simpl.
  apply NoDup_app. split_and!; [done| |apply NoDup_singleton].
  intros x Hx ->%list_elem_of_singleton. done.
Qed.

Lemma unique_delete_run i : stmt_keeps unique_order_ids (sql_delete_run i).
Proof.
  intros d a d'. unfold sql_delete_run, unique_order_ids, order_ids.
  destruct (tbl_program_runs d); [|done].
  intros [= _ <-]. simpl. destruct (tbl_orders d) as [rows|]; simpl; [|done].
  intros Hnd. eapply sublist_NoDup; [exact Hnd|].
  apply fmap_sublist, sublist_filter.
Qed.

Lemma unique_get_new_orders_only self s :
  unique_order_ids (con_db s) →
  unique_order_ids (con_db (get_new_orders_only self s).2).
Proof.
  assert (Hk : ∀ A (m : M A) (k : A → M (list order_dict)) s,
             keeps unique_order_ids m →
             (∀ a s1, unique_order_ids (con_db s1) → unique_order_ids (con_db (k a s1).2)) →
             unique_order_ids (con_db s) → unique_order_ids (con_db (bind m k s).2)).
  { intros A m k s0 Hm Hk Hs. destruct (Hm s0) as [_ Hp]. unfold bind.
    destruct (m s0) as [[e|a] s1]; simpl in *; auto. }
  unfold get_new_orders_only. intros Hs.
  apply Hk; [apply keeps_get_order_ids_in_db| |done].
  intros ids s1 H1. apply Hk; [| |done].
  { apply keeps_comprehension_if. intros c.
    apply keeps_bind; [apply keeps_getitem|intros k]. apply keeps_not_in. }
  intros new s2 H2. apply Hk; [apply keeps_logging| |done].
  intros _ s3 H3. apply Hk; [| |done].
  { destruct ids; [apply keeps_logging|apply keeps_raise]. }
  intros _ s4 H4. done.
Qed.

Lemma unique_add_orders_to_db jd env clk self s :
  unique_order_ids (con_db s) →
  unique_order_ids (con_db (add_orders_to_db jd env clk self s).2).
Proof.
  assert (Hk : ∀ A (m : M A) (k : A → M unit) s,
             keeps unique_order_ids m →
             (∀ a s1, unique_order_ids (con_db s1) → unique_order_ids (con_db (k a s1).2)) →
             unique_order_ids (con_db s) → unique_order_ids (con_db (bind m k s).2)).
  { intros A m k s0 Hm Hk Hs. destruct (Hm s0) as [_ Hp]. unfold bind.
    destruct (m s0) as [[e|a] s1]; simpl in *; auto. }
  unfold add_orders_to_db. intros Hs.
  apply Hk; [apply keeps_backup_db| |done]. intros _ s1 H1.
  apply Hk; [apply keeps_insert_new_run, unique_insert_run| |done]. intros _ s2 H2.
  apply Hk; [apply keeps_get_current_run_id| |done]. intros rn s3 H3.
  apply Hk; [apply keeps_insert_multiple_orders, unique_insert_order| |done].
  intros _ s4 H4.
  apply Hk; [apply keeps_flush_old_orders, unique_delete_run| |done].
  intros _ s5 H5.
  apply Hk; [apply keeps_backup_db| |done]. intros _ s6 H6. done.
Qed.

Lemma unique_run_op jd o s :
  unique_order_ids (con_db s) → unique_order_ids (con_db (run_op jd o s)).
Proof.
  intros Hs. destruct o; simpl.
  - apply keeps_create_schema;
      auto using unique_create_program_runs, unique_create_orders.
  - by apply keeps_get_order_ids_in_db.
  - apply keeps_insert_new_run; auto using unique_insert_run.
  - by apply keeps_get_current_run_id.
  - apply keeps_insert_new_order; auto using unique_insert_order.
  - apply keeps_insert_multiple_orders; auto using unique_insert_order.
  - apply keeps_flush_old_orders; auto using unique_delete_run.
  - by apply keeps_backup_db.
  - by apply unique_get_new_orders_only.
  - by apply unique_add_orders_to_db.
Qed.

Lemma unique_run_ops jd os s :
  unique_order_ids (con_db s) → unique_order_ids (con_db (run_ops jd os s)).
Proof.
  revert s. induction os as [|o os IH]; intros s Hs; simpl; [done|].
  apply IH. by apply unique_run_op.
Qed.

(** ** Inserting orders *)

Lemma sql_insert_order_dup now oid pd pay buyer added rn d :
  oid ∈ order_ids d →
  ∃ e, sql_insert_order now oid pd pay buyer added rn d = inl e.
Proof.
  unfold order_ids, sql_insert_order. intros Hin.
  destruct (tbl_orders d) as [rows|]; simpl in Hin; [|by apply elem_of_nil in Hin].
  destruct (tbl_program_runs d); [|by eexists].
  destruct rn; [|by eexists]. rewrite bool_decide_eq_true_2 by done. by eexists.
Qed.

(** A duplicate is refused in whatever state the method is called: the
    call returns, the store is as before, one ERROR record is written. *)
Lemma insert_new_order_dup clk oid pd pay buyer added rn s :
  oid ∈ order_ids (con_db s) →
  ∃ s' msg, insert_new_order clk oid pd pay buyer added rn s = (inr tt, s')
            ∧ con_db s' = con_db s ∧ log s' = log s ++ [(ERROR, msg)].
Proof.
  intros Hin.
  destruct (sql_insert_order_dup (current_timestamp clk) oid pd pay buyer added rn _ Hin)
    as [e0 He0].
  destruct s as [d c fl lg flt]; simpl in *.
  unfold insert_new_order, try_except, bind, with_con, execute, bind,
    check_open, env_fault, run_stmt; simpl.
  destruct c; simpl.
  { by do 2 eexists. }
  destruct flt as [|[e|] flt]; simpl; rewrite ?He0; simpl;
    unfold except_OperationalError_or_Exception;
    repeat match goal with
           | |- context [is_OperationalError ?x] => destruct (is_OperationalError x)
           end; simpl; by do 2 eexists.
Qed.

(** With the connection open and no outside failure, a call to
    [insert_new_order] returns and leaves the store exactly as the
    attempt on its own row leaves it. *)
Lemma insert_new_order_open clk oid pd pay buyer added rn s :
  con_closed s = false → faults s = [] →
  ∃ s', insert_new_order clk oid pd pay buyer added rn s = (inr tt, s')
        ∧ con_db s' =
            match sql_insert_order (current_timestamp clk) oid pd pay buyer added rn
                    (con_db s) with
            | inr (_, d') => d'
            | inl _ => con_db s
            end
        ∧ con_closed s' = false ∧ faults s' = [].
Proof.
  destruct s as [d c fl lg flt]; simpl. intros -> ->.
  unfold insert_new_order, try_except, bind, with_con, execute, bind,
    check_open, env_fault, run_stmt; simpl.
  destruct (sql_insert_order _ _ _ _ _ _ _ _) as [e|[[] d']]; simpl.
  - unfold except_OperationalError_or_Exception.
    destruct (is_OperationalError e); simpl; by eexists.
  - by eexists.
Qed.

(** A loop whose body always returns and acts on the store as [step]
    does is the left fold of [step]; [I] is what the body needs of the
    state and hands on. *)
Lemma for_each_fold {A} (I : state → Prop) (step : database → A → database)
    (l : list A) (body : A → M unit) :
  (∀ x s, x ∈ l → I s →
     ∃ s', body x s = (inr tt, s') ∧ con_db s' = step (con_db s) x ∧ I s') →
  ∀ s, I s →
    ∃ s', for_each l body s = (inr tt, s')
          ∧ con_db s' = foldl step (con_db s) l ∧ I s'.
Proof.
  induction l as [|x l IH]; intros Hb s Hs; simpl.
  - by exists s.
  - destruct (Hb x s) as (s1 & E1 & Hd1 & H1); [left|done|].
    destruct IH with (s := s1) as (s2 & E2 & Hd2 & H2); [|done|].
    { intros y s0 Hy. apply Hb. by right. }
    exists s2. rewrite (bind_inr _ _ _ _ _ E1). by rewrite <- Hd1.
Qed.

(** The loop of [insert_multiple_orders] is the left fold of the
    attempts: a row that is refused changes nothing and the loop goes
    on with the next. *)
Lemma insert_multiple_orders_fold clk ords rn s :
  Forall well_keyed ords → con_closed s = false → faults s = [] →
  ∃ s', insert_multiple_orders clk ords rn s = (inr tt, s')
        ∧ con_db s' = foldl (attempt_insert clk rn) (con_db s) ords
        ∧ con_closed s' = false ∧ faults s' = [].
Proof.
  intros Hwk Hc Hf. unfold insert_multiple_orders.
  match goal with
  | |- context [for_each ords ?b] =>
      destruct (for_each_fold (λ s, con_closed s = false ∧ faults s = [])
                  (attempt_insert clk rn) ords b) with (s := s)
        as (s1 & E1 & Hd1 & Hc1 & Hf1)
  end; [|done|].
  - intros c s0 Hin [Hc0 Hf0].
    destruct (proj1 (Forall_forall _ _) Hwk c Hin)
      as ([k Hk] & [pd Hpd] & [pay Hpay] & [b Hb]).
    destruct (insert_new_order_open clk k pd pay b (strftime_ymd (today clk)) rn s0 Hc0 Hf0)
      as (s2 & E2 & Hd2 & Hc2 & Hf2).
    unfold getitem. rewrite Hk, Hpd, Hpay, Hb.
    eexists. split; [|split].
    + unfold bind at 1, ret at 1. unfold bind at 1, ret at 1.
      unfold bind at 1, ret at 1. unfold bind at 1, ret at 1.
      rewrite (bind_inr _ _ _ _ _ E2). reflexivity.
    + simpl. rewrite Hd2. unfold attempt_insert. by rewrite Hk, Hpd, Hpay, Hb.
    + done.
  - rewrite (bind_inr _ _ _ _ _ E1). eexists. split; [reflexivity|]. done.
Qed.

(** [insert_new_order] returns normally in every state: whatever the
    INSERT raises is caught. *)
Lemma insert_new_order_returns clk oid pd pay buyer added rn s :
  ∃ s', insert_new_order clk oid pd pay buyer added rn s = (inr tt, s').
Proof.
  destruct s as [d c fl lg flt].
  unfold insert_new_order, try_except, bind, with_con, execute, bind,
    check_open, env_fault, run_stmt, except_OperationalError_or_Exception; simpl.
  destruct c; simpl; [by eexists|].
  destruct flt as [|[e|] flt]; simpl;
    try (destruct (sql_insert_order _ _ _ _ _ _ _ _) as [e'|[[] d']]; simpl);
    repeat match goal with
           | |- context [is_OperationalError ?x] => destruct (is_OperationalError x)
           end; simpl; by eexists.
Qed.

Lemma for_each_returns {A} (l : list A) (body : A → M unit) :
  (∀ x s, x ∈ l → ∃ s', body x s = (inr tt, s')) →
  ∀ s, ∃ s', for_each l body s = (inr tt, s').
Proof.
  induction l as [|x l IH]; intros Hb s; simpl.
  - by exists s.
  - destruct (Hb x s) as (s1 & E1); [left|].
    destruct IH with (s := s1) as (s2 & E2).
    { intros y s0 Hy. apply Hb. by right. }
    exists s2. by rewrite (bind_inr _ _ _ _ _ E1).
Qed.

(** So does [insert_multiple_orders] on records that carry the four
    keys: no row makes the loop stop. *)
Lemma insert_multiple_orders_returns clk ords rn s :
  Forall well_keyed ords →
  ∃ s', insert_multiple_orders clk ords rn s = (inr tt, s').
Proof.
  intros Hwk. unfold insert_multiple_orders.
  match goal with
  | |- context [for_each ords ?b] =>
      destruct (for_each_returns ords b) with (s := s) as (s1 & E1)
  end.
  - intros c s0 Hin.
    destruct (proj1 (Forall_forall _ _) Hwk c Hin)
      as ([k Hk] & [pd Hpd] & [pay Hpay] & [b Hb]).
    destruct (insert_new_order_returns clk k pd pay b (strftime_ymd (today clk)) rn s0)
      as (s2 & E2).
    unfold getitem. rewrite Hk, Hpd, Hpay, Hb.
    eexists.
    unfold bind at 1, ret at 1. unfold bind at 1, ret at 1.
    unfold bind at 1, ret at 1. unfold bind at 1, ret at 1.
    rewrite (bind_inr _ _ _ _ _ E2). reflexivity.
  - rewrite (bind_inr _ _ _ _ _ E1). by eexists.
Qed.

Lemma attempt_insert_rows clk rn d c rows :
  tbl_orders d = Some rows →
  ∃ more, tbl_orders (attempt_insert clk rn d c) = Some (rows ++ more)
          ∧ (default "" (c !! "order-id") ∈ order_ids d →
             attempt_insert clk rn d c = d).
Proof.
  intros Hr. unfold attempt_insert.
  destruct (sql_insert_order _ _ _ _ _ _ _ _) as [e|[[] d']] eqn:E.
  - exists []. by rewrite app_nil_r.
  - revert E. unfold sql_insert_order. rewrite Hr.
    destruct (tbl_program_runs d); [|done].
    destruct rn as [r|]; [|done].
    case_bool_decide as Hin; [done|].
    case_bool_decide; [|done]. intros [= <-]. simpl.
    eexists. split; [reflexivity|].
    unfold order_ids. rewrite Hr. simpl. done.
Qed.

(** C2.  Each order identifier is stored at most once, and stays so
    through any sequence of operations of the class.  Inserting an order
    whose identifier is already stored is refused for that row alone:
    [insert_new_order] returns normally, logs an error and leaves the
    store (hence the row already there) as it was; and
    [insert_multiple_orders], on records that carry the four keys,
    returns normally in every state and, with the connection open and
    no outside failure, leaves the store that trying each row in turn
    leaves, a refused row changing nothing and the rows already stored
    staying in place. *)
Theorem order_ids_unique_duplicates_rejected
    (julianday : string → option Z) (s : state)
    (Huniq : unique_order_ids (con_db s)) :
  (∀ os, unique_order_ids (con_db (run_ops julianday os s)))
  ∧ (∀ clk oid pd pay buyer added rn,
       oid ∈ order_ids (con_db s) →
       ∃ s' msg,
         insert_new_order clk oid pd pay buyer added rn s = (inr tt, s')
         ∧ con_db s' = con_db s ∧ log s' = log s ++ [(ERROR, msg)])
  ∧ (∀ clk ords rn,
       Forall well_keyed ords →
       ∃ s', insert_multiple_orders clk ords rn s = (inr tt, s')
             ∧ (con_closed s = false → faults s = [] →
                con_db s' = foldl (attempt_insert clk rn) (con_db s) ords))
  ∧ (∀ clk rn d c rows,
       tbl_orders d = Some rows →
       ∃ more, tbl_orders (attempt_insert clk rn d c) = Some (rows ++ more)
               ∧ (default "" (c !! "order-id") ∈ order_ids d →
                  attempt_insert clk rn d c = d)).
Proof.
  split_and!.
  - intros os. by apply unique_run_ops.
  - intros. by apply insert_new_order_dup.
  - intros clk ords rn Hwk.
    destruct (insert_multiple_orders_returns clk ords rn s Hwk) as (s' & E).
    exists s'. split; [done|]. intros Hc Hf.
    destruct (insert_multiple_orders_fold clk ords rn s Hwk Hc Hf) as (s'' & E' & Hd & _).
    congruence.
  - intros. by apply attempt_insert_rows.
Qed.

(** The batch [A1; A2] on a store that already holds A1: A1 is
    refused, A2 is stored behind the row that was there. *)
Lemma order_ids_unique_duplicates_rejected_witness :
  unique_order_ids (con_db st_A1)
  ∧ (∀ os, unique_order_ids (con_db (run_ops julianday_iso os st_A1)))
  ∧ (∃ s', insert_multiple_orders clk_jan1 [order_A1; order_A2] (Some 1) st_A1
           = (inr tt, s')
           ∧ order_ids (con_db s') = ["A1"; "A2"]
           ∧ head (default [] (tbl_orders (con_db s'))) = Some row_A1).
Proof.
  assert (H : unique_order_ids (con_db st_A1)) by (unfold unique_order_ids, order_ids; simpl; apply NoDup_singleton).
  split; [exact H|].
  destruct (order_ids_unique_duplicates_rejected julianday_iso st_A1 H)
    as (H1 & _ & H3 & _).
  split; [exact H1|].
  destruct (H3 clk_jan1 [order_A1; order_A2] (Some 1)) as (s' & E & Hd).
  - constructor; [|constructor; [|constructor]];
      (split_and!; eexists; vm_compute; reflexivity).
  - exists s'. split; [exact E|]. rewrite Hd by reflexivity. by vm_compute.
Defined.

(** ** Selecting the new orders *)

Lemma get_order_ids_in_db_ok s rows :
  con_closed s = false → no_fault_next s → tbl_orders (con_db s) = Some rows →
  ∃ s', _get_order_ids_in_db s = (inr (Some (order_id <$> rows)), s')
        ∧ con_db s' = con_db s ∧ con_closed s' = false.
Proof.
  intros Hc Hf Hr.
  assert (E : execute sql_select_order_ids s
              = (inr (order_id <$> rows), set_db (con_db s) (set_faults (tail (faults s)) s))).
  { apply execute_ok; [done|done|]. unfold sql_select_order_ids. by rewrite Hr. }
  unfold _get_order_ids_in_db, try_except.
  unfold bind at 1. unfold with_con. rewrite (bind_inr _ _ _ _ _ E).
  unfold bind, logging, ret. simpl. rewrite Hc. simpl. eexists. split; [reflexivity|]. done.
Qed.

(** The comprehension against a list of stored identifiers is [filter]. *)
Lemma comprehension_if_new S (l : list order_dict) s :
  Forall has_order_id l →
  comprehension_if l
    (λ order_data, oid <- getitem order_data "order-id" ;; not_in oid (Some S)) s
  = (inr (filter (is_new S) l), s).
Proof.
  induction 1 as [|c l [k Hk] _ IH]; [done|].
  cbn [comprehension_if].
  rewrite (bind_inr _ _ s (negb (bool_decide (k ∈ S))) s);
    [|unfold bind, getitem; by rewrite Hk].
  rewrite (bind_inr _ _ _ _ _ IH). unfold ret. f_equal. f_equal.
  rewrite filter_cons.
  destruct (decide (is_new S c)) as [Hn|Hn]; unfold is_new in Hn; rewrite Hk in Hn.
  - by rewrite bool_decide_eq_false_2.
  - rewrite bool_decide_eq_true_2; [done|]. by destruct (decide (k ∈ S)).
Qed.

Lemma get_new_orders_only_run self s rows :
  con_closed s = false → no_fault_next s → tbl_orders (con_db s) = Some rows →
  Forall has_order_id (orders self) →
  ∃ s', get_new_orders_only self s
        = (inr (filter (is_new (order_id <$> rows)) (orders self)), s')
        ∧ con_db s' = con_db s ∧ con_closed s' = true.
Proof.
  intros Hc Hf Hr Hk.
  destruct (get_order_ids_in_db_ok s rows Hc Hf Hr) as (s1 & E1 & Hd1 & Hc1).
  unfold get_new_orders_only. rewrite (bind_inr _ _ _ _ _ E1).
  rewrite (bind_inr _ _ _ _ _ (comprehension_if_new _ _ s1 Hk)).
  unfold bind, logging, con_close, ret. simpl. eexists. split; [reflexivity|]. done.
Qed.

(** C1.  With the connection open, the SELECT not failing and every
    candidate carrying an ['order-id'], [get_new_orders_only] returns
    exactly the candidates whose identifier is equal to none of the
    stored identifiers, in their original order (the [filter] of the
    batch); the store is not changed and the connection is closed. *)
Theorem get_new_orders_only_filters
    (self : OrdersDB) (s : state) (rows : list order_row)
    (Hopen : con_closed s = false) (Hnf : no_fault_next s)
    (Hrows : tbl_orders (con_db s) = Some rows)
    (Hkeys : Forall has_order_id (orders self)) :
  ∃ s', get_new_orders_only self s
        = (inr (filter (is_new (order_id <$> rows)) (orders self)), s')
        ∧ con_db s' = con_db s ∧ con_closed s' = true.
Proof. by apply get_new_orders_only_run. Qed.

(** The store holds A1; of the candidates A1, a1, A2 the last two come
    back, in that order. *)
Lemma get_new_orders_only_filters_witness :
  ∃ s', get_new_orders_only (self_of [order_A1; order_a1; order_A2]) st_A1
        = (inr [order_a1; order_A2], s')
        ∧ con_db s' = con_db st_A1 ∧ con_closed s' = true.
Proof.
  destruct (get_new_orders_only_filters
              (self_of [order_A1; order_a1; order_A2]) st_A1 [row_A1])
    as (s' & E & H);
    [reflexivity | intros e; discriminate | reflexivity
    | repeat constructor; eexists; vm_compute; reflexivity | ].
  exists s'. split; [|exact H]. rewrite E. f_equal.
Defined.

(** C10.  Two candidates of one batch that share an identifier absent
    from the store are both returned, each at its place: the batch is
    filtered against the stored identifiers only. *)
Theorem get_new_orders_only_keeps_batch_duplicates
    (self : OrdersDB) (s : state) (rows : list order_row) (k : string)
    (c1 c2 : order_dict) (l1 l2 l3 : list order_dict)
    (Hopen : con_closed s = false) (Hnf : no_fault_next s)
    (Hrows : tbl_orders (con_db s) = Some rows)
    (Hkeys : Forall has_order_id (orders self))
    (Hbatch : orders self = l1 ++ c1 :: l2 ++ c2 :: l3)
    (Hc1 : c1 !! "order-id" = Some k) (Hc2 : c2 !! "order-id" = Some k)
    (Hk : k ∉ order_id <$> rows) :
  ∃ r1 r2 r3 s',
    get_new_orders_only self s = (inr (r1 ++ c1 :: r2 ++ c2 :: r3), s').
Proof.
  destruct (get_new_orders_only_run self s rows Hopen Hnf Hrows Hkeys)
    as (s' & E & _).
  set (S := order_id <$> rows) in *.
  assert (N1 : is_new S c1) by (unfold is_new; by rewrite Hc1).
  assert (N2 : is_new S c2) by (unfold is_new; by rewrite Hc2).
  exists (filter (is_new S) l1), (filter (is_new S) l2), (filter (is_new S) l3), s'.
  rewrite E, Hbatch. f_equal. f_equal.
  rewrite filter_app, (filter_cons_True _ _ _ N1).
  by rewrite filter_app, (filter_cons_True _ _ _ N2).
Qed.

(** The store holds A1; the batch A2, A1, A2 (a second record) gives
    back both A2 records. *)
Lemma get_new_orders_only_keeps_batch_duplicates_witness :
  ∃ r1 r2 r3 s',
    get_new_orders_only (self_of [order_A2; order_A1; order_A2b]) st_A1
    = (inr (r1 ++ order_A2 :: r2 ++ order_A2b :: r3), s').
Proof.
  apply (get_new_orders_only_keeps_batch_duplicates
           (self_of [order_A2; order_A1; order_A2b]) st_A1 [row_A1] "A2"
           order_A2 order_A2b [] [order_A1] []).
  - reflexivity.
  - intros e; discriminate.
  - reflexivity.
  - repeat constructor; eexists; vm_compute; reflexivity.
  - reflexivity.
  - vm_compute; reflexivity.
  - vm_compute; reflexivity.
  - simpl. intros H. apply list_elem_of_singleton in H. discriminate.
Defined.

(** ** The stale-run query *)

Lemma is_old_run_spec jd now days r :
  is_old_run jd now days r = true ↔ run_age_exceeds jd now days r.
Proof.
  unfold is_old_run, run_age_exceeds, age_days.
  destruct (jd (run_time r)); simpl; [apply Z.ltb_lt|done].
Qed.

Lemma filter_is_old_run jd now days runs :
  List.filter (is_old_run jd now days) runs
  = filter (run_age_exceeds jd now days) runs.
Proof.
  induction runs as [|r runs IH]; [done|]. simpl. rewrite filter_cons, IH.
  destruct (decide (run_age_exceeds jd now days r)) as [H|H].
  - by rewrite (proj2 (is_old_run_spec jd now days r) H).
  - destruct (is_old_run jd now days r) eqn:E; [|done].
    by apply is_old_run_spec in E.
Qed.

Lemma get_old_runs_ids_ok jd clk days s runs :
  con_closed s = false → no_fault_next s →
  tbl_program_runs (con_db s) = Some runs →
  __get_old_runs_ids jd clk days s
  = (inr (Some (run_id <$>
                  filter (run_age_exceeds jd (julianday_now_localtime clk) days) runs)),
     set_log (log s ++
              [(DEBUG, "Identified old run ids: {old_run_ids}, added more than {archive_days} days ago")])
       (set_faults (tail (faults s)) s)).
Proof.
  intros Hc Hf Hr.
  assert (E : execute (sql_select_old_runs jd (julianday_now_localtime clk) days) s
              = (inr (run_id <$>
                        filter (run_age_exceeds jd (julianday_now_localtime clk) days) runs),
                 set_db (con_db s) (set_faults (tail (faults s)) s))).
  { apply execute_ok; [done|done|]. unfold sql_select_old_runs.
    by rewrite Hr, filter_is_old_run. }
  unfold __get_old_runs_ids, try_except. unfold bind at 1. unfold with_con.
  rewrite E. simpl. rewrite Hc. unfold bind, logging, ret. simpl.
  by destruct s.
Qed.

Lemma quot_whole_days k : Z.quot (k * ms_per_day) ms_per_day = k.
Proof. by apply Z.quot_mul. Qed.

(** C3.  For every integer [archive_days], with the connection open and
    the SELECT not failing, [__get_old_runs_ids] returns the identifiers
    of exactly the runs whose age in whole days (the fraction cut off)
    is strictly greater than [archive_days], in table order.  A run aged
    exactly [archive_days] days is not selected, nor is one aged less
    than a day more; a run aged [archive_days + 1] days is selected. *)
Theorem get_old_runs_ids_strictly_older
    (julianday : string → option Z) (clk : clock) (archive_days : Z)
    (s : state) (runs : list run_row)
    (Hopen : con_closed s = false) (Hnf : no_fault_next s)
    (Hruns : tbl_program_runs (con_db s) = Some runs) :
  let now := julianday_now_localtime clk in
  let sel := filter (run_age_exceeds julianday now archive_days) runs in
  (∃ s', __get_old_runs_ids julianday clk archive_days s
         = (inr (Some (run_id <$> sel)), s')
         ∧ con_db s' = con_db s)
  ∧ (∀ r jd, julianday (run_time r) = Some jd →
       now - jd = archive_days * ms_per_day → r ∉ sel)
  ∧ (∀ r jd, julianday (run_time r) = Some jd → 0 ≤ archive_days →
       archive_days * ms_per_day ≤ now - jd < (archive_days + 1) * ms_per_day →
       r ∉ sel)
  ∧ (∀ r jd, r ∈ runs → julianday (run_time r) = Some jd →
       now - jd = (archive_days + 1) * ms_per_day → r ∈ sel).
Proof.
  intros now sel. split_and!.
  - eexists. split; [by apply get_old_runs_ids_ok|]. done.
  - intros r jd Hjd Hage [Hsel _]%list_elem_of_filter.
    unfold run_age_exceeds in Hsel. rewrite Hjd, Hage, quot_whole_days in Hsel. lia.
  - intros r jd Hjd Hnn [Hlo Hhi] [Hsel _]%list_elem_of_filter.
    unfold run_age_exceeds in Hsel. rewrite Hjd in Hsel.
    assert (Hd : 0 < ms_per_day) by done.
    rewrite Z.quot_div_nonneg in Hsel by nia.
    assert ((now - jd) / ms_per_day < archive_days + 1)
      by (apply Z.div_lt_upper_bound; nia).
    lia.
  - intros r jd Hin Hjd Hage. apply list_elem_of_filter. split; [|done].
    unfold run_age_exceeds. rewrite Hjd, Hage, quot_whole_days. lia.
Qed.

(** Fourteen days as the threshold, on 16 January at nine: the run of
    1 January, nine o'clock, is fifteen days old and selected; the run
    of 2 January, nine o'clock, is fourteen days old and is not. *)
Lemma get_old_runs_ids_strictly_older_witness :
  ∃ s', __get_old_runs_ids julianday_iso clk_jan16 14 (st_two_runs [])
        = (inr (Some [1]), s')
        ∧ con_db s' = db_two_runs.
Proof.
  destruct (get_old_runs_ids_strictly_older julianday_iso clk_jan16 14
              (st_two_runs []) [run_jan1; run_jan2])
    as ((s' & E & Hd) & _);
    [reflexivity | intros e; discriminate | reflexivity |].
  exists s'. split; [|exact Hd]. rewrite E. f_equal.
Defined.

(** ** Flushing old runs *)

Lemma sql_delete_run_ok i d :
  tbl_program_runs d ≠ None →
  ∃ d', sql_delete_run i d = inr (tt, d') ∧ tbl_program_runs d' ≠ None.
Proof.
  unfold sql_delete_run. destruct (tbl_program_runs d); [|done].
  intros _. by eexists.
Qed.

(** The loop of DELETEs when none of them fails. *)
Lemma delete_loop_ok ids s :
  con_closed s = false → tbl_program_runs (con_db s) ≠ None →
  Forall (λ f, f = None) (take (length ids) (faults s)) →
  for_each ids (λ rid, execute (sql_delete_run rid)) s
  = (inr tt, set_db (delete_runs ids (con_db s))
               (set_faults (drop (length ids) (faults s)) s)).
Proof.
  revert s. induction ids as [|i ids IH]; intros s Hc Ht Hf.
  - simpl. unfold ret. by destruct s.
  - destruct (sql_delete_run_ok i (con_db s) Ht) as (d' & Ed & Ht').
    assert (Hnf : no_fault_next s).
    { intros e He. destruct (faults s) as [|f fs]; [done|].
      simpl in *. apply Forall_cons in Hf as [-> _]. done. }
    cbn [for_each]. rewrite (bind_inr _ _ _ _ _ (execute_ok _ s tt d' Hc Hnf Ed)).
    rewrite IH; [|done|done|].
    + simpl. unfold delete_runs. simpl. rewrite Ed.
      destruct s as [d c fl lg [|f fs]]; simpl; [|done].
      by rewrite drop_nil.
    + simpl. destruct (faults s) as [|f fs]; simpl in *.
      * rewrite take_nil. constructor.
      * by apply Forall_cons in Hf as [_ Hf].
Qed.

(** The loop of DELETEs when one of them fails: the exception leaves
    the loop at once, the entries of the script behind the failing one
    are not consumed. *)
Lemma delete_loop_fails ids s pre e rest :
  con_closed s = false → tbl_program_runs (con_db s) ≠ None →
  faults s = pre ++ Some e :: rest → Forall (λ f, f = None) pre →
  (length pre < length ids)%nat →
  ∃ d', for_each ids (λ rid, execute (sql_delete_run rid)) s
        = (inl e, set_db d' (set_faults rest s)).
Proof.
  revert s pre. induction ids as [|i ids IH]; intros s pre Hc Ht Hf Hpre Hlen.
  { simpl in Hlen. lia. }
  destruct pre as [|f pre]; simpl in Hf.
  - exists (con_db s). cbn [for_each].
    rewrite (bind_inl _ _ _ _ _ (execute_fault _ s e rest Hc Hf)). by destruct s.
  - apply Forall_cons in Hpre as [-> Hpre].
    destruct (sql_delete_run_ok i (con_db s) Ht) as (d' & Ed & Ht').
    assert (Hnf : no_fault_next s) by (intros e'; by rewrite Hf).
    cbn [for_each]. rewrite (bind_inr _ _ _ _ _ (execute_ok _ s tt d' Hc Hnf Ed)).
    destruct (IH (set_db d' (set_faults (tail (faults s)) s)) pre) as (d'' & E);
      [done|done|by rewrite Hf|done|simpl in Hlen; lia|].
    exists d''. rewrite E. by destruct s.
Qed.

(** C4, as the code has it.  The DELETEs of one flush run in one
    transaction inside one [try].  With the connection open and the
    SELECT of the stale runs not failing: when no DELETE fails, every
    stale run is deleted (its orders with it) and the call returns;
    when a DELETE fails, the loop ends there, the DELETEs behind it are
    not sent (their entries of the fault script are still there), the
    deletions already made in this call are rolled back, so that the
    store is as before the call, an error is logged and the call
    returns. *)
Theorem flush_old_orders_all_or_nothing
    (julianday : string → option Z) (clk : clock) (archive_days : Z)
    (s : state) (runs : list run_row)
    (Hopen : con_closed s = false) (Hnf : no_fault_next s)
    (Hruns : tbl_program_runs (con_db s) = Some runs) :
  let ids := run_id <$> filter (run_age_exceeds julianday
                                  (julianday_now_localtime clk) archive_days) runs in
  let fs := tail (faults s) in
  (Forall (λ f, f = None) (take (length ids) fs) →
   ∃ s' msg, _flush_old_orders julianday clk archive_days s = (inr tt, s')
         ∧ con_db s' = delete_runs ids (con_db s)
         ∧ faults s' = drop (length ids) fs
         ∧ last (log s') = Some (INFO, msg))
  ∧ (∀ pre e rest,
       fs = pre ++ Some e :: rest → Forall (λ f, f = None) pre →
       (length pre < length ids)%nat →
       ∃ s' msg, _flush_old_orders julianday clk archive_days s = (inr tt, s')
             ∧ con_db s' = con_db s
             ∧ faults s' = rest
             ∧ last (log s') = Some (ERROR, msg)).
Proof.
  intros ids fs.
  pose proof (get_old_runs_ids_ok julianday clk archive_days s runs Hopen Hnf Hruns) as E0.
  fold ids in E0.
  set (s1 := set_log _ _) in E0.
  assert (Hc1 : con_closed s1 = false) by done.
  assert (Ht1 : tbl_program_runs (con_db s1) ≠ None) by (simpl; by rewrite Hruns).
  split.
  - intros Hall.
    pose proof (delete_loop_ok ids s1 Hc1 Ht1 Hall) as E1.
    unfold _flush_old_orders. rewrite (bind_inr _ _ _ _ _ E0).
    unfold try_except. unfold bind at 1. unfold with_con. rewrite E1.
    simpl. rewrite Hopen. unfold logging. simpl.
    do 2 eexists. split_and!; [reflexivity|done|done|cbn [log set_log]; by rewrite last_snoc].
  - intros pre e rest Hfs Hpre Hlen.
    destruct (delete_loop_fails ids s1 pre e rest Hc1 Ht1 Hfs Hpre Hlen) as (d' & E1).
    unfold _flush_old_orders. rewrite (bind_inr _ _ _ _ _ E0).
    unfold try_except. unfold bind at 1. unfold with_con. rewrite E1.
    simpl. rewrite Hopen. unfold except_OperationalError_or_Exception, logging.
    destruct (is_OperationalError e); simpl;
      do 2 eexists; (split_and!; [reflexivity|done|done|cbn [log set_log]; by rewrite last_snoc]).
Qed.

(** Both runs of the store are stale.  With no failure both are
    deleted, and the orders with them. *)
Lemma flush_old_orders_all_or_nothing_witness :
  ∃ s' msg, _flush_old_orders julianday_iso clk_feb1 14 (st_two_runs []) = (inr tt, s')
        ∧ con_db s' = Database (Some []) (Some []) 2
        ∧ faults s' = []
        ∧ last (log s') = Some (INFO, msg).
Proof.
  destruct (flush_old_orders_all_or_nothing julianday_iso clk_feb1 14
              (st_two_runs []) [run_jan1; run_jan2])
    as [H _]; [reflexivity | intros e; discriminate | reflexivity |].
  destruct H as (s' & msg & E & Hd & Hf & Hl).
  - vm_compute. constructor.
  - exists s', msg. split_and!; [exact E| |exact Hf|exact Hl].
    rewrite Hd. vm_compute. reflexivity.
Defined.

(** C4, the claim as stated, fails.  Both runs are stale and the only
    failure is that of the DELETE for run 1.  The DELETE for run 2 would
    succeed, but it is never sent: its entry of the fault script is
    still there after the call, and run 2 and its order are still
    stored.  And when it is the DELETE for run 2 that fails, the
    deletion of run 1, which went through, is undone. *)
Lemma flush_old_orders_not_best_effort :
  let s := st_two_runs [None; Some database_is_locked; None] in
  let r := _flush_old_orders julianday_iso clk_feb1 14 s in
  let s2 := st_two_runs [None; None; Some disk_io_error] in
  let r2 := _flush_old_orders julianday_iso clk_feb1 14 s2 in
  (__get_old_runs_ids julianday_iso clk_feb1 14 s).1 = inr (Some [1; 2])
  ∧ r.1 = inr tt
  ∧ faults r.2 = [None]
  ∧ con_db r.2 = db_two_runs
  ∧ (∃ d, sql_delete_run 2 db_two_runs = inr (tt, d))
  ∧ r2.1 = inr tt
  ∧ faults r2.2 = []
  ∧ con_db r2.2 = db_two_runs.
Proof. vm_compute. split_and!; try reflexivity. by eexists. Qed.

(** ** Resolving the current run *)

Lemma get_current_run_id_mismatch clk s runs r :
  con_closed s = false → no_fault_next s →
  tbl_program_runs (con_db s) = Some runs → latest_run runs = Some r →
  split_space_first (run_time r) ≠ strftime_ymd (today clk) →
  _get_current_run_id clk s
  = (inl (AssertionError "fetched run_time ({run_time_date}) date is not today"),
     set_faults (tail (faults s)) s).
Proof.
  intros Hc Hf Hr Hl Hd.
  assert (E : execute sql_select_latest_run s
              = (inr (Some (run_id r, run_time r)),
                 set_db (con_db s) (set_faults (tail (faults s)) s))).
  { apply execute_ok; [done|done|]. unfold sql_select_latest_run. by rewrite Hr, Hl. }
  unfold _get_current_run_id, try_except, with_con.
  rewrite (bind_inr _ _ _ _ _ E). cbv beta iota zeta.
  rewrite (proj2 (String.eqb_neq _ _) Hd). unfold raise. simpl. rewrite Hc. simpl.
  by destruct s.
Qed.

(** C5.  With the connection open and the SELECT not failing: if the
    run with the greatest [run_time] is not dated today,
    [_get_current_run_id] raises [AssertionError] instead of returning a
    run identifier; and [add_orders_to_db], having come to this step
    (its backup and its run insertion returned, leaving state [s]), ends
    with that exception, in the state the failed step leaves: no order
    is inserted, nothing is flushed, no second backup is written. *)
Theorem get_current_run_id_asserts_today
    (clk : clock) (s : state) (runs : list run_row) (r : run_row)
    (Hopen : con_closed s = false) (Hnf : no_fault_next s)
    (Hruns : tbl_program_runs (con_db s) = Some runs)
    (Hlatest : latest_run runs = Some r)
    (Hdate : split_space_first (run_time r) ≠ strftime_ymd (today clk)) :
  (∃ msg s', _get_current_run_id clk s = (inl (AssertionError msg), s')
             ∧ con_db s' = con_db s ∧ files s' = files s)
  ∧ (∀ julianday env self s0,
       (_backup_db (db_backup_b4_path self) ;;;
        _insert_new_run clk (get_today_weekday_int env None) RunTimeTrue) s0
       = (inr tt, s) →
       ∃ msg s', add_orders_to_db julianday env clk self s0
                 = (inl (AssertionError msg), s')
                 ∧ con_db s' = con_db s ∧ files s' = files s
                 ∧ con_closed s' = false).
Proof.
  pose proof (get_current_run_id_mismatch clk s runs r Hopen Hnf Hruns Hlatest Hdate) as E.
  split.
  - do 2 eexists. split; [exact E|]. done.
  - intros jd env self s0 Hpre. unfold add_orders_to_db.
    unfold bind at 1 in Hpre. unfold bind at 1.
    destruct (_backup_db (db_backup_b4_path self) s0) as [[e|[]] sa]; [done|].
    rewrite (bind_inr _ _ _ _ _ Hpre), (bind_inl _ _ _ _ _ E).
    do 2 eexists. split; [reflexivity|]. by simpl.
Qed.

(** Run at half past midnight one hour east of UTC, on a store without
    runs: the run just inserted carries the UTC date, 1 January, the
    caller's date is 2 January, and the ingestion stops there. *)
Lemma get_current_run_id_asserts_today_witness :
  ∃ msg s', add_orders_to_db julianday_iso (import_module clk_jan2_east) clk_jan2_east
              (self_of [order_A1]) (st_schema [])
            = (inl (AssertionError msg), s')
            ∧ tbl_orders (con_db s') = Some [].
Proof.
  set (pre := (_backup_db (db_backup_b4_path (self_of [order_A1])) ;;;
               _insert_new_run clk_jan2_east
                 (get_today_weekday_int (import_module clk_jan2_east) None) RunTimeTrue)
                (st_schema [])).
  destruct (get_current_run_id_asserts_today clk_jan2_east pre.2
              [RunRow 1 "2024-01-01 23:30:00" 2] (RunRow 1 "2024-01-01 23:30:00" 2))
    as [_ H]; [reflexivity | intros e; discriminate | reflexivity | reflexivity
              | vm_compute; discriminate |].
  destruct (H julianday_iso (import_module clk_jan2_east) (self_of [order_A1])
              (st_schema [])) as (msg & s' & E & Hd & _); [reflexivity|].
  exists msg, s'. split; [exact E|]. by rewrite Hd.
Defined.

(** ** Opening a run *)

Lemma insert_new_run_caught clk wd rt s e s1 :
  execute (sql_insert_run
             (match rt with
              | RunTimeTrue => current_timestamp clk
              | RunTimeGiven t => t
              end) wd) s = (inl e, s1) →
  ∃ s', _insert_new_run clk wd rt s = (inr tt, s')
        ∧ con_db s' = con_db s
        ∧ log s' = log s ++
                   [(CRITICAL, "Failed to insert new run to program_runs table. Error: {e}")].
Proof.
  destruct s as [d c fl lg flt]. intros Hfail.
  unfold _insert_new_run, try_except, with_con.
  destruct rt; rewrite (bind_inl _ _ _ _ _ Hfail);
    revert Hfail; unfold execute, bind, check_open, env_fault, run_stmt; simpl;
    destruct c; simpl;
    try (intros [= <- <-]; simpl; by eexists);
    (destruct flt as [|[e'|] flt]; simpl;
     try (intros [= <- <-]; simpl; by eexists);
     (destruct (sql_insert_run _ _ _) as [e''|[[] d']]; simpl;
      intros [= <- <-]; simpl; by eexists)).
Qed.

(** C6, as the code has it.  A failure to insert the run row is caught
    inside [_insert_new_run]: the method logs it at CRITICAL, the highest
    level there is, leaves the store as it was and returns normally.
    Nothing reaches the caller: [add_orders_to_db], once its first
    backup has returned, goes on with [_get_current_run_id] and the steps
    behind it from the state the failed insert leaves. *)
Theorem insert_new_run_failure_logged_not_raised
    (clk : clock) (wd : Z) (rt : run_time_arg) (s s1 : state) (e : exn)
    (Hfail : execute (sql_insert_run
                        (match rt with
                         | RunTimeTrue => current_timestamp clk
                         | RunTimeGiven t => t
                         end) wd) s = (inl e, s1)) :
  ∃ s' msg,
    _insert_new_run clk wd rt s = (inr tt, s')
    ∧ con_db s' = con_db s
    ∧ log s' = log s ++ [(CRITICAL, msg)]
    ∧ (∀ l, level_no l ≤ level_no CRITICAL)
    ∧ (∀ julianday env self s0,
         rt = RunTimeTrue → wd = get_today_weekday_int env None →
         _backup_db (db_backup_b4_path self) s0 = (inr tt, s) →
         add_orders_to_db julianday env clk self s0
         = (new_run_id <- _get_current_run_id clk ;;
            insert_multiple_orders clk (orders self) new_run_id ;;;
            _flush_old_orders julianday clk ORDERS_ARCHIVE_DAYS ;;;
            _backup_db (db_backup_after_path self) ;;;
            con_close) s').
Proof.
  destruct (insert_new_run_caught clk wd rt s e s1 Hfail) as (s' & E & Hd & Hl).
  exists s'. eexists. split_and!; [exact E|exact Hd|exact Hl| |].
  - intros l. by destruct l.
  - intros jd env self s0 -> -> Hb. unfold add_orders_to_db.
    by rewrite (bind_inr _ _ _ _ _ Hb), (bind_inr _ _ _ _ _ E).
Qed.

(** The store is locked when the run is to be inserted: the method
    returns, the table of runs is as before, one CRITICAL record is
    written. *)
Lemma insert_new_run_failure_logged_not_raised_witness :
  ∃ s' msg,
    _insert_new_run clk_jan1 1 RunTimeTrue
      (fresh_state db_A1 ∅ [Some database_is_locked]) = (inr tt, s')
    ∧ con_db s' = db_A1
    ∧ log s' = [(CRITICAL, msg)].
Proof.
  destruct (insert_new_run_failure_logged_not_raised clk_jan1 1 RunTimeTrue
              (fresh_state db_A1 ∅ [Some database_is_locked])
              (fresh_state db_A1 ∅ []) database_is_locked)
    as (s' & msg & E & Hd & Hl & _); [reflexivity|].
  by exists s', msg.
Defined.

(** C6, the claim as stated, fails.  The store holds a run made earlier
    today with the order A1; the INSERT of the new run fails (the third
    call into [sqlite3], after the two of the backup).  The ingestion
    returns normally all the same: no run was added, a CRITICAL record
    was written, and the order A2 was inserted, under the earlier
    run. *)
Lemma insert_new_run_failure_not_fatal :
  let s := fresh_state db_A1 ∅ [None; None; Some database_is_locked] in
  let r := add_orders_to_db julianday_iso (import_module clk_jan1) clk_jan1
             (self_of [order_A2]) s in
  r.1 = inr tt
  ∧ log r.2 !! 1%nat
    = Some (CRITICAL, "Failed to insert new run to program_runs table. Error: {e}")
  ∧ tbl_program_runs (con_db r.2) = Some [run_jan1]
  ∧ order_ids (con_db r.2) = ["A1"; "A2"]
  ∧ run <$> default [] (tbl_orders (con_db r.2)) = [1; 1].
Proof. vm_compute. by split_and!. Qed.

(** ** Closing the connection *)

Lemma keeps_True_stmt {A} (stmt : database → exn + (A * database)) :
  stmt_keeps (λ _, True) stmt.
Proof. by intros d a d' _ _. Qed.

Lemma closes_on_return_bind {A B} (m : M A) (k : A → M B) :
  keeps (λ _, True) m → (∀ a, closes_on_return (k a)) →
  closes_on_return (bind m k).
Proof.
  intros Hm Hk s. destruct (Hm s) as [Hc _]. unfold bind.
  destruct (m s) as [[e|a] s1]; simpl in *; [done|].
  specialize (Hk a s1). destruct (k a s1) as [[e|b] s2]; congruence.
Qed.

Lemma closes_on_return_con_close : closes_on_return con_close.
Proof. by intros s. Qed.

(** C7, as the code has it.  [add_orders_to_db] closes the connection
    as its last statement and nowhere else: when it returns, the
    connection is closed; when it ends with an exception, the connection
    is as it was before the call (open, if it was open). *)
Theorem add_orders_to_db_closes_only_on_return
    (julianday : string → option Z) (env : module_env) (clk : clock)
    (self : OrdersDB) (s : state) :
  match add_orders_to_db julianday env clk self s with
  | (inr _, s') => con_closed s' = true
  | (inl _, s') => con_closed s' = con_closed s
  end.
Proof.
  revert s. change (closes_on_return (add_orders_to_db julianday env clk self)).
  unfold add_orders_to_db.
  apply closes_on_return_bind; [apply keeps_backup_db|intros _].
  apply closes_on_return_bind;
    [apply keeps_insert_new_run; intros; apply keeps_True_stmt|intros _].
  apply closes_on_return_bind; [apply keeps_get_current_run_id|intros rn].
  apply closes_on_return_bind;
    [apply keeps_insert_multiple_orders; intros; apply keeps_True_stmt|intros _].
  apply closes_on_return_bind;
    [apply keeps_flush_old_orders; intros; apply keeps_True_stmt|intros _].
  apply closes_on_return_bind; [apply keeps_backup_db|intros _].
  apply closes_on_return_con_close.
Qed.

(** C7, the claim as stated, fails.  When the first backup cannot open
    its file, and when the run just inserted is not dated today, the
    ingestion ends with the exception and the connection is still
    open. *)
Lemma add_orders_to_db_leaves_connection_open :
  let r1 := add_orders_to_db julianday_iso (import_module clk_jan1) clk_jan1
              (self_of [order_A1]) (st_schema [Some unable_to_open]) in
  let r2 := add_orders_to_db julianday_iso (import_module clk_jan2_east) clk_jan2_east
              (self_of [order_A1]) (st_schema []) in
  r1.1 = inl unable_to_open ∧ con_closed r1.2 = false
  ∧ r2.1 = inl (AssertionError "fetched run_time ({run_time_date}) date is not today")
  ∧ con_closed r2.2 = false.
Proof. vm_compute. by split_and!. Qed.

(** ** Creating the schema *)

(** C8.  With the connection open and both tables in place,
    [__create_schema] returns normally whatever [OperationalError] its
    two CREATE TABLE statements meet (the one SQLite raises for a table
    that exists, or one from outside): each is caught and logged at
    DEBUG, and the store is left as it was. *)
Theorem create_schema_idempotent
    (s : state) (runs : list run_row) (ords : list order_row)
    (Hopen : con_closed s = false)
    (Hruns : tbl_program_runs (con_db s) = Some runs)
    (Hords : tbl_orders (con_db s) = Some ords)
    (Hflt : Forall (λ f, ∀ e, f = Some e → is_OperationalError e = true)
              (take 2 (faults s))) :
  ∃ s', __create_schema s = (inr tt, s')
        ∧ con_db s' = con_db s
        ∧ con_closed s' = false
        ∧ log s' = log s ++
                   [(DEBUG, "program_runs table already created. Error: {e}");
                    (DEBUG, "orders table already created. Error: {e}");
                    (DEBUG, "database tables are in place and ready to be used")].
Proof.
  destruct s as [[tr to sq] c fl lg flt]; simpl in *. subst c tr to.
  unfold __create_schema, try_except, with_con, execute, bind, check_open,
    env_fault, run_stmt, sql_create_program_runs, sql_create_orders,
    except_OperationalError, logging; simpl.
  destruct flt as [|f1 [|f2 flt]]; simpl in *.
  - eexists. split; [reflexivity|]. simpl. by rewrite <- !app_assoc.
  - apply Forall_cons in Hflt as [H1 _].
    destruct f1 as [e1|];
      [pose proof (H1 e1 eq_refl) as He1; destruct e1; try discriminate He1|];
      simpl; (eexists; split; [reflexivity|]; simpl; by rewrite <- !app_assoc).
  - apply Forall_cons in Hflt as [H1 [H2 _]%Forall_cons].
    destruct f1 as [e1|];
      [pose proof (H1 e1 eq_refl) as He1; destruct e1; try discriminate He1|];
      (destruct f2 as [e2|];
       [pose proof (H2 e2 eq_refl) as He2; destruct e2; try discriminate He2|]);
      simpl; (eexists; split; [reflexivity|]; simpl; by rewrite <- !app_assoc).
Qed.

(** Opening a store twice: the first [__init__] creates the tables, the
    second finds them, logs it and leaves the store alone. *)
Lemma create_schema_idempotent_witness :
  ∃ s', __create_schema (__init__ "/out" [] (fresh_state empty_database ∅ [])).2
        = (inr tt, s')
        ∧ con_db s' = db_schema
        ∧ con_closed s' = false.
Proof.
  destruct (create_schema_idempotent
              (__init__ "/out" [] (fresh_state empty_database ∅ [])).2 [] [])
    as (s' & E & Hd & Hc & _); [reflexivity|reflexivity|reflexivity|constructor|].
  by exists s'.
Defined.

(** ** The weekday of today *)

(** Called without an argument, [get_today_weekday_int] gives the
    weekday number of the day the module was loaded: the clock is not
    read at the call. *)
Lemma get_today_weekday_int_default_is_import_day (clk_import : clock) :
  get_today_weekday_int (import_module clk_import) None
  = weekday (today clk_import) + 1.
Proof. reflexivity. Qed.

(** C9, on the code.  The default of [date_arg] is the [datetime.today()]
    read when the module is loaded, not one read at each call.  The
    module is loaded on Monday 1 January 2024 and the function is called
    without an argument on Tuesday 2 January: it answers 1, the number
    of Monday, where Tuesday's number, which it gives when handed
    Tuesday's date, is 2. *)
Theorem get_today_weekday_int_stale_default :
  let env := import_module clk_jan1 in
  get_today_weekday_int env None = 1
  ∧ get_today_weekday_int env (Some (today clk_jan2_east)) = 2.
Proof. by vm_compute. Qed.

(** * Further properties of the class *)

(** ** Invariants of the store, for any property the statements keep *)
Section Preserved.

Variable P : database → Prop.
Hypothesis P_create_program_runs : stmt_keeps P sql_create_program_runs.
Hypothesis P_create_orders : stmt_keeps P sql_create_orders.
Hypothesis P_insert_run : ∀ rt wd, stmt_keeps P (sql_insert_run rt wd).
Hypothesis P_insert_order :
  ∀ now oid pd pay buyer added rn,
    stmt_keeps P (sql_insert_order now oid pd pay buyer added rn).
Hypothesis P_delete_run : ∀ i, stmt_keeps P (sql_delete_run i).

#[local] Abbreviation sound := (preserves P).

Lemma sound_keeps {A} (m : M A) : keeps P m → sound m.
Proof. intros H s. by destruct (H s). Qed.

Lemma sound_bind {A B} (m : M A) (k : A → M B) :
  sound m → (∀ a, sound (k a)) → sound (bind m k).
Proof.
  intros Hm Hk s Hs. specialize (Hm s Hs). unfold bind.
  destruct (m s) as [[e|a] s1]; simpl in *; [done|]. by apply Hk.
Qed.

Lemma sound_con_close : sound con_close.
Proof. by intros s. Qed.

Lemma preserved_get_new_orders_only self : sound (get_new_orders_only self).
Proof.
  unfold get_new_orders_only.
  apply sound_bind; [apply sound_keeps, keeps_get_order_ids_in_db|intros ids].
  apply sound_bind; [apply sound_keeps|intros new].
  { apply keeps_comprehension_if. intros c.
    apply keeps_bind; [apply keeps_getitem|intros k]. apply keeps_not_in. }
  apply sound_bind; [apply sound_keeps, keeps_logging|intros _].
  apply sound_bind; [apply sound_keeps|intros _].
  { destruct ids; [apply keeps_logging|apply keeps_raise]. }
  apply sound_bind; [apply sound_con_close|intros _]. by intros s.
Qed.

Lemma preserved_add_orders_to_db jd env clk self :
  sound (add_orders_to_db jd env clk self).
Proof.
  unfold add_orders_to_db.
  apply sound_bind; [apply sound_keeps, keeps_backup_db|intros _].
  apply sound_bind; [by apply sound_keeps, keeps_insert_new_run|intros _].
  apply sound_bind; [apply sound_keeps, keeps_get_current_run_id|intros rn].
  apply sound_bind; [by apply sound_keeps, keeps_insert_multiple_orders|intros _].
  apply sound_bind; [by apply sound_keeps, keeps_flush_old_orders|intros _].
  apply sound_bind; [apply sound_keeps, keeps_backup_db|intros _].
  apply sound_con_close.
Qed.

Lemma preserved_init output_dir ords : sound (__init__ output_dir ords).
Proof.
  unfold __init__.
  apply sound_bind; [apply sound_keeps, keeps_env_fault|intros _].
  apply sound_bind; [apply sound_keeps, keeps_execute|intros _].
  { intros d a d'. by intros [= _ <-]. }
  apply sound_bind; [by apply sound_keeps, keeps_create_schema|intros _].
  by intros s.
Qed.

Lemma preserved_run_op jd o s : P (con_db s) → P (con_db (run_op jd o s)).
Proof.
  intros Hs. destruct o; simpl.
  - by apply keeps_create_schema.
  - by apply keeps_get_order_ids_in_db.
  - by apply keeps_insert_new_run.
  - by apply keeps_get_current_run_id.
  - by apply keeps_insert_new_order.
  - by apply keeps_insert_multiple_orders.
  - by apply keeps_flush_old_orders.
  - by apply keeps_backup_db.
  - by apply preserved_get_new_orders_only.
  - by apply preserved_add_orders_to_db.
Qed.

Lemma preserved_run_ops jd os s : P (con_db s) → P (con_db (run_ops jd os s)).
Proof.
  revert s. induction os as [|o os IH]; intros s Hs; simpl; [done|].
  apply IH. by apply preserved_run_op.
Qed.

End Preserved.

(** ** Run identifiers *)

Lemma max_run_id_ge rows r : r ∈ rows → run_id r ≤ max_run_id rows.
Proof.
  unfold max_run_id. induction rows as [|x rows IH]; intros Hin.
  - by apply elem_of_nil in Hin.
  - rewrite fmap_cons. cbn [foldr].
    apply elem_of_cons in Hin as [->|Hin]; [lia|].
    specialize (IH Hin). lia.
Qed.

Lemma next_run_id_fresh d rows r :
  r ∈ rows → run_id r < next_run_id d rows.
Proof. intros Hin. apply max_run_id_ge in Hin. unfold next_run_id. lia. Qed.

Lemma runs_wf_create_program_runs : stmt_keeps runs_wf sql_create_program_runs.
Proof.
  intros d a d'. unfold sql_create_program_runs, runs_wf, run_ids.
  destruct (tbl_program_runs d); [done|]. intros [= _ <-] _. simpl.
  split; constructor.
Qed.

Lemma runs_wf_create_orders : stmt_keeps runs_wf sql_create_orders.
Proof.
  intros d a d'. unfold sql_create_orders.
  destruct (tbl_orders d); [done|]. by intros [= _ <-].
Qed.

Lemma runs_wf_insert_run rt wd : stmt_keeps runs_wf (sql_insert_run rt wd).
Proof.
  intros d a d'. unfold sql_insert_run, runs_wf, run_ids.
  destruct (tbl_program_runs d) as [rows|]; [|done].
  intros [= _ <-] [Hnd Hle]. simpl in *. rewrite fmap_app. simpl. split.
  - apply NoDup_app. split_and!; [done| |apply NoDup_singleton].
    intros x [r [-> Hr]]%list_elem_of_fmap Heq%list_elem_of_singleton.
    pose proof (next_run_id_fresh d rows r Hr). lia.
  - apply Forall_app. split; [|by repeat constructor].
    apply Forall_forall. intros x [r [-> Hr]]%list_elem_of_fmap.
    pose proof (next_run_id_fresh d rows r Hr). lia.
Qed.

Lemma runs_wf_insert_order now oid pd pay buyer added rn :
  stmt_keeps runs_wf (sql_insert_order now oid pd pay buyer added rn).
Proof.
  intros d a d'. unfold sql_insert_order.
  destruct (tbl_orders d); [|done]. destruct (tbl_program_runs d) eqn:E; [|done].
  destruct rn; [|done]. repeat case_bool_decide; try done.
  intros [= _ <-]. unfold runs_wf, run_ids. simpl. by rewrite E.
Qed.

Lemma runs_wf_delete_run i : stmt_keeps runs_wf (sql_delete_run i).
Proof.
  intros d a d'. unfold sql_delete_run, runs_wf, run_ids.
  destruct (tbl_program_runs d) as [rows|]; [|done].
  intros [= _ <-] [Hnd Hle]. simpl in *. split.
  - eapply sublist_NoDup; [exact Hnd|]. apply fmap_sublist, sublist_filter.
  - apply Forall_forall. intros x [r [-> [_ Hr]%list_elem_of_filter]]%list_elem_of_fmap.
    apply (proj1 (Forall_forall _ _) Hle). by apply list_elem_of_fmap_2.
Qed.

(** X1.  If the runs of the store are well numbered (no identifier
    twice, none above the AUTOINCREMENT counter), they still are after
    any sequence of operations of the class, wherever an operation
    fails. *)
Theorem runs_well_numbered_invariant
    (julianday : string → option Z) (s : state)
    (Hwf : runs_wf (con_db s)) (os : list op) :
  runs_wf (con_db (run_ops julianday os s)).
Proof.
  apply preserved_run_ops;
    auto using runs_wf_create_program_runs, runs_wf_create_orders,
      runs_wf_insert_run, runs_wf_insert_order, runs_wf_delete_run.
Qed.

Lemma runs_well_numbered_invariant_witness :
  runs_wf (con_db (run_ops julianday_iso
                     [Op_add_orders_to_db (import_module clk_feb1) clk_feb1
                        (self_of [order_A2b]);
                      Op_insert_new_run clk_feb1 4 RunTimeTrue]
                     (st_two_runs []))).
Proof.
  apply runs_well_numbered_invariant.
  split; [apply (bool_decide_unpack _); by vm_compute
         |repeat constructor; by vm_compute].
Defined.

(** ** Orders and their runs *)

Lemma no_orphans_create_program_runs : stmt_keeps no_orphans sql_create_program_runs.
Proof.
  intros d a d'. unfold sql_create_program_runs, no_orphans, run_ids.
  destruct (tbl_program_runs d) eqn:E; [done|]. intros [= _ <-]. by simpl.
Qed.

Lemma no_orphans_create_orders : stmt_keeps no_orphans sql_create_orders.
Proof.
  intros d a d'. unfold sql_create_orders, no_orphans.
  destruct (tbl_orders d); [done|]. intros [= _ <-] _ o Ho. simpl in Ho.
  by apply elem_of_nil in Ho.
Qed.

Lemma no_orphans_insert_run rt wd : stmt_keeps no_orphans (sql_insert_run rt wd).
Proof.
  intros d a d'. unfold sql_insert_run, no_orphans, run_ids.
  destruct (tbl_program_runs d) as [rows|]; [|done].
  intros [= _ <-] H o Ho. simpl in *. rewrite fmap_app. apply elem_of_app. left. auto.
Qed.

Lemma no_orphans_insert_order now oid pd pay buyer added rn :
  stmt_keeps no_orphans (sql_insert_order now oid pd pay buyer added rn).
Proof.
  intros d a d'. unfold sql_insert_order, no_orphans, run_ids.
  destruct (tbl_orders d) as [rows|]; [|done].
  destruct (tbl_program_runs d) as [runs|] eqn:E; [|done].
  destruct rn as [r|]; [|done]. case_bool_decide as Hdup; [done|].
  case_bool_decide as Hr; [|done].
  intros [= _ <-] Hno o Ho. simpl in *. rewrite ?E. simpl.
  apply elem_of_app in Ho as [Ho|Ho%list_elem_of_singleton]; [by apply Hno|].
  by subst o.
Qed.

Lemma no_orphans_delete_run i : stmt_keeps no_orphans (sql_delete_run i).
Proof.
  intros d a d'. unfold sql_delete_run, no_orphans, run_ids.
  destruct (tbl_program_runs d) as [runs|]; [|done].
  intros [= _ <-] H o Ho. simpl in *.
  destruct (tbl_orders d) as [rows|]; simpl in *; [|by apply elem_of_nil in Ho].
  apply list_elem_of_filter in Ho as [Hne Ho].
  destruct (proj1 (list_elem_of_fmap _ _ _) (H o Ho)) as (r & Hr & Hin).
  apply list_elem_of_fmap. exists r. split; [done|].
  apply list_elem_of_filter. split; [congruence|done].
Qed.

(** X2.  If every stored order names a stored run, this still holds
    after any sequence of operations of the class: an order is only
    stored under a run that exists, and deleting a run takes its orders
    with it. *)
Theorem no_orphans_invariant
    (julianday : string → option Z) (s : state)
    (Hno : no_orphans (con_db s)) (os : list op) :
  no_orphans (con_db (run_ops julianday os s)).
Proof.
  apply preserved_run_ops;
    auto using no_orphans_create_program_runs, no_orphans_create_orders,
      no_orphans_insert_run, no_orphans_insert_order, no_orphans_delete_run.
Qed.

Lemma no_orphans_invariant_witness :
  no_orphans (con_db (run_ops julianday_iso
                        [Op_insert_multiple_orders clk_feb1 [order_A2b] (Some 7);
                         Op_flush_old_orders clk_feb1 14]
                        (st_two_runs []))).
Proof.
  apply no_orphans_invariant.
  intros o Ho. simpl in Ho.
  apply elem_of_cons in Ho as [->|Ho]; [by vm_compute; left|].
  apply list_elem_of_singleton in Ho as ->. vm_compute. right. left.
Defined.

(** ** Opening a store *)

(** X3.  On an open connection with no outside failure, [__init__]
    returns the instance with its orders and its three paths, and leaves
    a store in which both tables exist: a table that was there keeps its
    rows, a table that was missing is created empty. *)
Theorem init_ensures_schema
    (output_dir : string) (ords : list order_dict) (s : state)
    (Hopen : con_closed s = false) (Hnf : faults s = []) :
  ∃ s', __init__ output_dir ords s = (inr (__get_db_paths output_dir ords), s')
        ∧ tbl_program_runs (con_db s') = Some (default [] (tbl_program_runs (con_db s)))
        ∧ tbl_orders (con_db s') = Some (default [] (tbl_orders (con_db s)))
        ∧ seq_program_runs (con_db s') = seq_program_runs (con_db s)
        ∧ con_closed s' = false.
Proof.
  destruct s as [[tr to sq] c fl lg flt]; simpl in *. subst c flt.
  unfold __init__, __create_schema, try_except, with_con, execute, bind,
    check_open, env_fault, run_stmt, sql_create_program_runs, sql_create_orders,
    except_OperationalError, logging, ret; simpl.
  destruct tr, to; simpl; by eexists.
Qed.

Lemma init_ensures_schema_witness :
  ∃ s', __init__ "/out" [order_A1] (fresh_state (Database None (Some [row_A1]) 0) ∅ [])
        = (inr (self_of [order_A1]), s')
        ∧ tbl_program_runs (con_db s') = Some []
        ∧ tbl_orders (con_db s') = Some [row_A1].
Proof.
  destruct (init_ensures_schema "/out" [order_A1]
              (fresh_state (Database None (Some [row_A1]) 0) ∅ []))
    as (s' & E & H1 & H2 & _); [reflexivity|reflexivity|].
  by exists s'.
Defined.

(** ** Reading the stored identifiers when the read fails *)

Lemma execute_inl_state {A} (stmt : database → exn + (A * database)) s e s1 :
  execute stmt s = (inl e, s1) →
  con_closed s1 = con_closed s ∧ con_db s1 = con_db s
  ∧ log s1 = log s ∧ files s1 = files s.
Proof.
  destruct s as [d c fl lg flt].
  unfold execute, bind, check_open, env_fault, run_stmt; simpl.
  destruct c; simpl; [by intros [= <- <-]|].
  destruct flt as [|[e'|] flt]; simpl;
    try (by intros [= <- <-]);
    (destruct (stmt d) as [e''|[a d']]; simpl; [by intros [= <- <-]|done]).
Qed.

Lemma get_order_ids_in_db_caught s msg s1 :
  con_closed s = false →
  execute sql_select_order_ids s = (inl (OperationalError msg), s1) →
  ∃ s', _get_order_ids_in_db s = (inr None, s')
        ∧ con_closed s' = false ∧ con_db s' = con_db s
        ∧ log s' = log s ++
            [(CRITICAL,
              "Failed to retrieve order_ids as list from orders table. Syntax error: {e}")].
Proof.
  intros Hc E. destruct (execute_inl_state _ _ _ _ E) as (Hc1 & Hd1 & Hl1 & _).
  unfold _get_order_ids_in_db, try_except. unfold bind at 1. unfold with_con.
  rewrite (bind_inl _ _ _ _ _ E). rewrite Hc1, Hc. simpl.
  unfold bind, logging, ret. simpl. eexists. split; [reflexivity|].
  simpl. by rewrite Hc1, Hl1.
Qed.

(** X4.  When the SELECT of the stored identifiers raises
    [OperationalError] (the table is missing, the store is locked...),
    [get_new_orders_only] does not take the store for empty: the failure
    is logged at CRITICAL and the method ends with a [TypeError], for an
    empty batch too (provided the first candidate, if there is one,
    carries an ['order-id']); the connection is left open. *)
Theorem get_new_orders_only_read_failure
    (self : OrdersDB) (s s1 : state) (msg : string)
    (Hopen : con_closed s = false)
    (Hfail : execute sql_select_order_ids s = (inl (OperationalError msg), s1))
    (Hhead : ∀ c, head (orders self) = Some c → has_order_id c) :
  ∃ m s', get_new_orders_only self s = (inl (TypeError m), s')
          ∧ con_closed s' = false ∧ con_db s' = con_db s
          ∧ (CRITICAL,
             "Failed to retrieve order_ids as list from orders table. Syntax error: {e}")
            ∈ log s'.
Proof.
  destruct (get_order_ids_in_db_caught s msg s1 Hopen Hfail)
    as (s2 & E2 & Hc2 & Hd2 & Hl2).
  unfold get_new_orders_only. rewrite (bind_inr _ _ _ _ _ E2).
  destruct (orders self) as [|c rest] eqn:Eo.
  - cbn [comprehension_if]. unfold bind, ret, logging, raise. simpl.
    do 2 eexists. split; [reflexivity|]. simpl. split_and!; [done|done|].
    rewrite Hl2. apply elem_of_app. left. apply elem_of_app. right. by left.
  - destruct (Hhead c eq_refl) as [k Hk].
    cbn [comprehension_if]. unfold bind at 1. unfold bind at 1.
    unfold getitem. rewrite Hk. unfold ret at 1, not_in, raise.
    do 2 eexists. split; [reflexivity|]. split_and!; [done|done|].
    rewrite Hl2. apply elem_of_app. right. by left.
Qed.

Lemma get_new_orders_only_read_failure_witness :
  ∃ m s', get_new_orders_only (self_of [order_A1])
            (fresh_state (Database (Some []) None 0) ∅ [])
          = (inl (TypeError m), s')
          ∧ con_closed s' = false.
Proof.
  destruct (get_new_orders_only_read_failure (self_of [order_A1])
              (fresh_state (Database (Some []) None 0) ∅ [])
              (fresh_state (Database (Some []) None 0) ∅ [])
              "no such table: orders")
    as (m & s' & E & Hc & _).
  - reflexivity.
  - reflexivity.
  - intros c [= <-]. eexists. vm_compute. reflexivity.
  - by exists m, s'.
Defined.

(** ** Records without a required key *)

Lemma comprehension_if_missing_key S (pre post : list order_dict) c s :
  Forall has_order_id pre → c !! "order-id" = None →
  comprehension_if (pre ++ c :: post)
    (λ order_data, oid <- getitem order_data "order-id" ;; not_in oid (Some S)) s
  = (inl (KeyError "order-id"), s).
Proof.
  intros Hpre Hc. induction Hpre as [|x pre [k Hk] _ IH]; cbn [app comprehension_if].
  - unfold bind at 1. unfold bind at 1. unfold getitem. by rewrite Hc.
  - rewrite (bind_inr _ _ s (negb (bool_decide (k ∈ S))) s);
      [|unfold bind, getitem; by rewrite Hk].
    by rewrite (bind_inl _ _ _ _ _ IH).
Qed.

(** X5.  With the stored identifiers read, a candidate without an
    ['order-id'] makes [get_new_orders_only] end with
    [KeyError('order-id')]: nothing is returned for the candidates before
    it, and the connection is left open. *)
Theorem get_new_orders_only_missing_key
    (self : OrdersDB) (s : state) (rows : list order_row)
    (pre post : list order_dict) (c : order_dict)
    (Hopen : con_closed s = false) (Hnf : no_fault_next s)
    (Hrows : tbl_orders (con_db s) = Some rows)
    (Hbatch : orders self = pre ++ c :: post)
    (Hpre : Forall has_order_id pre)
    (Hc : c !! "order-id" = None) :
  ∃ s', get_new_orders_only self s = (inl (KeyError "order-id"), s')
        ∧ con_closed s' = false ∧ con_db s' = con_db s.
Proof.
  destruct (get_order_ids_in_db_ok s rows Hopen Hnf Hrows) as (s1 & E1 & Hd1 & Hc1).
  unfold get_new_orders_only. rewrite (bind_inr _ _ _ _ _ E1), Hbatch.
  rewrite (bind_inl _ _ _ _ _ (comprehension_if_missing_key _ pre post c s1 Hpre Hc)).
  by exists s1.
Qed.

Lemma get_new_orders_only_missing_key_witness :
  ∃ s', get_new_orders_only (self_of [order_A2; delete "order-id" order_A1; order_A1]) st_A1
        = (inl (KeyError "order-id"), s')
        ∧ con_closed s' = false ∧ con_db s' = con_db st_A1.
Proof.
  apply (get_new_orders_only_missing_key
           (self_of [order_A2; delete "order-id" order_A1; order_A1]) st_A1 [row_A1]
           [order_A2] [order_A1] (delete "order-id" order_A1)).
  - reflexivity.
  - intros e; discriminate.
  - reflexivity.
  - reflexivity.
  - repeat constructor. eexists. vm_compute. reflexivity.
  - vm_compute. reflexivity.
Defined.





(** ** Backups *)

Lemma backup_db_ok path s :
  con_closed s = false → faults s = [] →
  _backup_db path s
  = (inr tt,
     State (con_db s) false (<[path := con_db s]> (files s))
       (log s ++
        [(INFO, "New database backup {name} created on: {now} location: {backup_db_path}")])
       []).
Proof.
  destruct s as [d c fl lg flt]; simpl. intros -> ->.
  unfold _backup_db, connect_backup, con_backup, bind, check_open, env_fault,
    logging; simpl.
  destruct (fl !! path); simpl; [done|]. by rewrite insert_insert_eq.
Qed.

Lemma backup_db_other_files path s p :
  p ≠ path → files (_backup_db path s).2 !! p = files s !! p.
Proof.
  intros Hp. destruct s as [d c fl lg flt].
  unfold _backup_db, connect_backup, con_backup, bind, check_open, env_fault,
    logging; simpl.
  destruct flt as [|[e|] flt]; simpl; [|done|];
    (destruct (fl !! path) eqn:E; simpl;
     destruct c; simpl; rewrite ?lookup_insert_ne by done; try done;
     destruct flt as [|[e|] flt]; simpl; by rewrite ?lookup_insert_ne by done).
Qed.

(** X7.  [_backup_db] never changes the live store, never closes the
    connection and never touches a file other than its target, in any
    state and whether it returns or raises; with the connection open and
    no outside failure it returns and its target then holds exactly the
    live store. *)
Theorem backup_db_snapshot (path : string) (s : state) :
  con_db (_backup_db path s).2 = con_db s
  ∧ con_closed (_backup_db path s).2 = con_closed s
  ∧ (∀ p, p ≠ path → files (_backup_db path s).2 !! p = files s !! p)
  ∧ (con_closed s = false → faults s = [] →
     (_backup_db path s).1 = inr tt
     ∧ files (_backup_db path s).2 !! path = Some (con_db s)).
Proof.
  split_and!.
  - by apply (keeps_backup_db (λ d, d = con_db s) path s).
  - by apply (keeps_backup_db (λ d, d = con_db s) path s).
  - intros p Hp. by apply backup_db_other_files.
  - intros Hc Hf. rewrite (backup_db_ok path s Hc Hf). simpl.
    by rewrite lookup_insert_eq.
Qed.

(** ** Opening a run and finding it again *)

Lemma insert_new_run_ok clk wd rt s runs :
  con_closed s = false → no_fault_next s →
  tbl_program_runs (con_db s) = Some runs →
  _insert_new_run clk wd rt s
  = (inr tt,
     State (Database
              (Some (runs ++ [RunRow (next_run_id (con_db s) runs)
                                (match rt with
                                 | RunTimeTrue => current_timestamp clk
                                 | RunTimeGiven t => t
                                 end) wd]))
              (tbl_orders (con_db s)) (next_run_id (con_db s) runs))
       false (files s)
       (log s ++
        [(DEBUG,
          match rt with
          | RunTimeTrue =>
              "Added new run to program_runs table. Inserted with weekday: {weekday}"
          | RunTimeGiven _ =>
              "Added new run to program_runs with hardcoded run_time: {run_time_default}. Inserted with weekday: {weekday}"
          end)])
       (tail (faults s))).
Proof.
  intros Hc Hf Hr.
  assert (E : ∀ ts, execute (sql_insert_run ts wd) s
                    = (inr tt, set_db (Database
                                         (Some (runs ++ [RunRow (next_run_id (con_db s) runs) ts wd]))
                                         (tbl_orders (con_db s))
                                         (next_run_id (con_db s) runs))
                                 (set_faults (tail (faults s)) s))).
  { intros ts. apply execute_ok; [done|done|]. unfold sql_insert_run. by rewrite Hr. }
  unfold _insert_new_run, try_except, with_con.
  destruct rt; rewrite (bind_inr _ _ _ _ _ (E _)); unfold logging; simpl;
    rewrite Hc; destruct s; simpl in *; by subst.
Qed.

(** X8.  With the connection open, the INSERT not failing and the table
    of runs in place, [_insert_new_run] returns having appended exactly
    one run: its time stamp is CURRENT_TIMESTAMP (or the one given), its
    weekday the one passed, and its identifier is greater than every
    stored identifier and than the AUTOINCREMENT counter, which becomes
    that identifier; the orders are untouched. *)
Theorem insert_new_run_appends
    (clk : clock) (wd : Z) (rt : run_time_arg) (s : state) (runs : list run_row)
    (Hopen : con_closed s = false) (Hnf : no_fault_next s)
    (Hruns : tbl_program_runs (con_db s) = Some runs) :
  let ts := match rt with
            | RunTimeTrue => current_timestamp clk
            | RunTimeGiven t => t
            end in
  ∃ s' i, _insert_new_run clk wd rt s = (inr tt, s')
          ∧ tbl_program_runs (con_db s') = Some (runs ++ [RunRow i ts wd])
          ∧ tbl_orders (con_db s') = tbl_orders (con_db s)
          ∧ seq_program_runs (con_db s') = i
          ∧ seq_program_runs (con_db s) < i
          ∧ (∀ r, r ∈ runs → run_id r < i).
Proof.
  intros ts. do 2 eexists.
  split; [by apply insert_new_run_ok|]. simpl.
  split_and!; try done.
  - unfold next_run_id. lia.
  - intros r Hr. by apply next_run_id_fresh.
Qed.

(** The counter stands at 5 though the only run has identifier 1 (runs
    2 to 5 were flushed): the new run is number 6. *)
Lemma insert_new_run_appends_witness :
  ∃ s', _insert_new_run clk_jan16 2 RunTimeTrue
          (fresh_state (Database (Some [run_jan1]) (Some []) 5) ∅ [])
        = (inr tt, s')
        ∧ tbl_program_runs (con_db s')
          = Some [run_jan1; RunRow 6 "2024-01-16 08:00:00" 2].
Proof.
  destruct (insert_new_run_appends clk_jan16 2 RunTimeTrue
              (fresh_state (Database (Some [run_jan1]) (Some []) 5) ∅ []) [run_jan1])
    as (s' & i & E & Hr & _ & Hi & _);
    [reflexivity | intros e; discriminate | reflexivity |].
  exists s'. split; [exact E|]. rewrite Hr, <- Hi.
  replace s' with (_insert_new_run clk_jan16 2 RunTimeTrue
                     (fresh_state (Database (Some [run_jan1]) (Some []) 5) ∅ [])).2
    by (by rewrite E).
  reflexivity.
Defined.

Lemma latest_run_snoc runs n :
  (∀ r, r ∈ runs → String.ltb (run_time r) (run_time n) = true) →
  latest_run (runs ++ [n]) = Some n.
Proof.
  induction runs as [|r runs IH]; intros H; simpl; [done|].
  rewrite IH by (intros r' Hr'; apply H; by right).
  rewrite H by left. done.
Qed.

Lemma get_current_run_id_ok clk s runs r :
  con_closed s = false → no_fault_next s →
  tbl_program_runs (con_db s) = Some runs → latest_run runs = Some r →
  split_space_first (run_time r) = strftime_ymd (today clk) →
  _get_current_run_id clk s
  = (inr (Some (run_id r)),
     set_log (log s ++ [(DEBUG, "Returning new run id: {run_id}")])
       (set_faults (tail (faults s)) s)).
Proof.
  intros Hc Hf Hr Hl Hd.
  assert (E : execute sql_select_latest_run s
              = (inr (Some (run_id r, run_time r)),
                 set_db (con_db s) (set_faults (tail (faults s)) s))).
  { apply execute_ok; [done|done|]. unfold sql_select_latest_run. by rewrite Hr, Hl. }
  unfold _get_current_run_id, try_except, with_con.
  rewrite (bind_inr _ _ _ _ _ E). cbv beta iota zeta.
  rewrite (proj2 (String.eqb_eq _ _) Hd). unfold bind, logging, ret. simpl.
  rewrite Hc. destruct s; simpl in *; by subst.
Qed.

(** X9.  Opening a run and asking for the current run gives back the
    run just opened: with the connection open and no outside failure,
    if CURRENT_TIMESTAMP is later (as text) than the time stamp of every
    stored run and its date part is the caller's date, then
    [_get_current_run_id], called after [_insert_new_run], returns the
    identifier the new run was given. *)
Theorem insert_new_run_then_current_run_id
    (clk : clock) (wd : Z) (s : state) (runs : list run_row)
    (Hopen : con_closed s = false) (Hnf : faults s = [])
    (Hruns : tbl_program_runs (con_db s) = Some runs)
    (Hlater : ∀ r, r ∈ runs → String.ltb (run_time r) (current_timestamp clk) = true)
    (Hdate : split_space_first (current_timestamp clk) = strftime_ymd (today clk)) :
  ∃ s', (_insert_new_run clk wd RunTimeTrue ;;; _get_current_run_id clk) s
        = (inr (Some (next_run_id (con_db s) runs)), s')
        ∧ tbl_program_runs (con_db s')
          = Some (runs ++ [RunRow (next_run_id (con_db s) runs) (current_timestamp clk) wd]).
Proof.
  assert (Hnf' : no_fault_next s) by (intros e; by rewrite Hnf).
  rewrite (bind_inr _ _ _ _ _
             (insert_new_run_ok clk wd RunTimeTrue s runs Hopen Hnf' Hruns)).
  erewrite get_current_run_id_ok;
    [|done|intros e; simpl; by rewrite Hnf|reflexivity
     |by apply latest_run_snoc|exact Hdate].
  eexists. split; [reflexivity|]. done.
Qed.

Lemma insert_new_run_then_current_run_id_witness :
  ∃ s', (_insert_new_run clk_jan16 2 RunTimeTrue ;;; _get_current_run_id clk_jan16)
          (st_two_runs [])
        = (inr (Some 3), s').
Proof.
  destruct (insert_new_run_then_current_run_id clk_jan16 2 (st_two_runs [])
              [run_jan1; run_jan2]) as (s' & E & _).
  - reflexivity.
  - reflexivity.
  - reflexivity.
  - intros r Hr. apply elem_of_cons in Hr as [->|Hr]; [by vm_compute|].
    apply list_elem_of_singleton in Hr as ->. by vm_compute.
  - by vm_compute.
  - exists s'. rewrite E. reflexivity.
Defined.

Lemma backup_db_snapshot_witness :
  (_backup_db "/out/amzn_orders_lrun.db" st_A1).1 = inr tt
  ∧ files (_backup_db "/out/amzn_orders_lrun.db" st_A1).2 !! "/out/amzn_orders_lrun.db"
    = Some db_A1.
Proof.
  destruct (backup_db_snapshot "/out/amzn_orders_lrun.db" st_A1) as (_ & _ & _ & H).
  apply H; reflexivity.
Defined.

(** ** What a flush removes *)

Lemma filter_ext_in {A} (P Q : A → Prop) `{!∀ x, Decision (P x), !∀ x, Decision (Q x)}
    (l : list A) :
  (∀ x, x ∈ l → P x ↔ Q x) → filter P l = filter Q l.
Proof.
  induction l as [|a l IH]; intros Hext; [done|].
  rewrite !filter_cons, IH by (intros x Hx; apply Hext; by right).
  apply decide_ext, Hext. by left.
Qed.

Lemma filter_all_in {A} (P : A → Prop) `{!∀ x, Decision (P x)} (l : list A) :
  (∀ x, x ∈ l → P x) → filter P l = l.
Proof.
  induction l as [|a l IH]; intros Hall; [done|].
  rewrite filter_cons_True by (apply Hall; by left).
  by rewrite IH by (intros x Hx; apply Hall; by right).
Qed.

Lemma delete_runs_spec ids d runs :
  tbl_program_runs d = Some runs →
  delete_runs ids d
  = Database (Some (filter (λ r, run_id r ∉ ids) runs))
             (filter (λ o, run o ∉ ids) <$> tbl_orders d)
             (seq_program_runs d).
Proof.
  revert d runs. induction ids as [|i ids IH]; intros d runs Hr.
  - unfold delete_runs. simpl. destruct d as [tr to sq]; simpl in *. subst tr.
    rewrite filter_all_in by (intros; apply not_elem_of_nil).
    destruct to as [rows|]; [|done]. simpl.
    by rewrite filter_all_in by (intros; apply not_elem_of_nil).
  - unfold delete_runs in *. cbn [foldl]. unfold sql_delete_run at 2. rewrite Hr.
    erewrite IH by reflexivity. simpl. f_equal.
    + f_equal. rewrite list_filter_filter. apply list_filter_iff.
      intros x. rewrite not_elem_of_cons. tauto.
    + destruct (tbl_orders d) as [rows|]; [|done]. simpl. f_equal.
      rewrite list_filter_filter. apply list_filter_iff.
      intros x. rewrite not_elem_of_cons. tauto.
Qed.

Lemma NoDup_fmap_inj_on {A B} (f : A → B) (l : list A) x y :
  NoDup (f <$> l) → x ∈ l → y ∈ l → f x = f y → x = y.
Proof.
  induction l as [|a l IH]; intros Hnd Hx Hy Hf; [by apply elem_of_nil in Hx|].
  rewrite fmap_cons in Hnd. apply NoDup_cons in Hnd as [Ha Hnd].
  apply elem_of_cons in Hx as [->|Hx]; apply elem_of_cons in Hy as [->|Hy].
  - done.
  - destruct Ha. rewrite Hf. by apply list_elem_of_fmap_2.
  - destruct Ha. rewrite <- Hf. by apply list_elem_of_fmap_2.
  - by apply IH.
Qed.

(** X10.  With the connection open, no outside failure, both tables in
    place and the run identifiers distinct, [_flush_old_orders] returns
    and leaves exactly the runs that are not stale (a run whose time
    stamp SQLite cannot read among them) and exactly the orders that do
    not belong to a stale run, in their order; the AUTOINCREMENT counter
    does not move. *)
Theorem flush_old_orders_cascade
    (julianday : string → option Z) (clk : clock) (archive_days : Z)
    (s : state) (runs : list run_row) (ords : list order_row)
    (Hopen : con_closed s = false) (Hnf : faults s = [])
    (Hruns : tbl_program_runs (con_db s) = Some runs)
    (Hords : tbl_orders (con_db s) = Some ords)
    (Hnd : NoDup (run_id <$> runs)) :
  let stale := run_age_exceeds julianday (julianday_now_localtime clk) archive_days in
  let ids := run_id <$> filter stale runs in
  ∃ s', _flush_old_orders julianday clk archive_days s = (inr tt, s')
        ∧ tbl_program_runs (con_db s') = Some (filter (λ r, ¬ stale r) runs)
        ∧ tbl_orders (con_db s') = Some (filter (λ o, run o ∉ ids) ords)
        ∧ seq_program_runs (con_db s') = seq_program_runs (con_db s).
Proof.
  intros stale ids.
  assert (Hnf' : no_fault_next s) by (intros e; by rewrite Hnf).
  pose proof (get_old_runs_ids_ok julianday clk archive_days s runs Hopen Hnf' Hruns) as E0.
  fold stale in E0. fold ids in E0.
  set (s1 := set_log _ _) in E0.
  assert (E1 : for_each ids (λ rid, execute (sql_delete_run rid)) s1
               = (inr tt, set_db (delete_runs ids (con_db s1))
                            (set_faults (drop (length ids) (faults s1)) s1))).
  { apply delete_loop_ok; [done|simpl; by rewrite Hruns|].
    simpl. rewrite Hnf. simpl. rewrite take_nil. constructor. }
  unfold _flush_old_orders. rewrite (bind_inr _ _ _ _ _ E0).
  unfold try_except. unfold bind at 1. unfold with_con. rewrite E1.
  simpl. rewrite Hopen. unfold logging. simpl.
  eexists. split; [reflexivity|]. simpl.
  rewrite (delete_runs_spec ids (con_db s) runs Hruns). simpl.
  rewrite Hords. simpl. split_and!; [|done|done].
  f_equal. apply filter_ext_in. intros r Hr. split.
  - intros Hnot Hst. apply Hnot. apply list_elem_of_fmap_2.
    by apply list_elem_of_filter.
  - intros Hns [r' [Heq [Hst Hr']%list_elem_of_filter]]%list_elem_of_fmap.
    apply Hns. by rewrite (NoDup_fmap_inj_on run_id runs r r' Hnd Hr Hr' Heq).
Qed.

(** Fourteen days as the threshold, on 16 January at nine: the run of
    1 January goes with its order A1, the run of 2 January and its order
    A2 stay. *)
Lemma flush_old_orders_cascade_witness :
  ∃ s', _flush_old_orders julianday_iso clk_jan16 14 (st_two_runs []) = (inr tt, s')
        ∧ tbl_program_runs (con_db s') = Some [run_jan2]
        ∧ tbl_orders (con_db s') = Some [row_A2].
Proof.
  destruct (flush_old_orders_cascade julianday_iso clk_jan16 14 (st_two_runs [])
              [run_jan1; run_jan2] [row_A1; row_A2])
    as (s' & E & Hr & Ho & _);
    [reflexivity|reflexivity|reflexivity|reflexivity| |].
  - apply (bool_decide_unpack _). by vm_compute.
  - exists s'. split; [exact E|]. rewrite Hr, Ho. split; reflexivity.
Defined.

(** ** Which methods write files *)

Lemma same_files_bind {A B} (m : M A) (k : A → M B) :
  same_files m → (∀ a, same_files (k a)) → same_files (bind m k).
Proof.
  intros Hm Hk s. specialize (Hm s). unfold bind.
  destruct (m s) as [[e|a] s1]; simpl in *; [done|]. by rewrite Hk.
Qed.

Lemma same_files_try_except {A} (body : M A) handler :
  same_files body → (∀ e h, handler e = Some h → same_files h) →
  same_files (try_except body handler).
Proof.
  intros Hb Hh s. specialize (Hb s). unfold try_except.
  destruct (body s) as [[e|a] s1]; simpl in *; [|done].
  destruct (handler e) as [h|] eqn:E; [|done]. by rewrite (Hh e h E).
Qed.

Lemma same_files_with_con {A} (body : M A) : same_files body → same_files (with_con body).
Proof.
  intros Hb s. specialize (Hb s). unfold with_con.
  destruct (body s) as [[e|a] s1]; simpl in *; by destruct (con_closed s1).
Qed.

Lemma same_files_execute {A} (stmt : database → exn + (A * database)) :
  same_files (execute stmt).
Proof.
  intros [d c fl lg flt]. unfold execute, bind, check_open, env_fault, run_stmt; simpl.
  destruct c; simpl; [done|].
  destruct flt as [|[e|] flt]; simpl; try done;
    by destruct (stmt d) as [e'|[a d']].
Qed.

Lemma same_files_for_each {A} (l : list A) body :
  (∀ x, same_files (body x)) → same_files (for_each l body).
Proof.
  intros H. induction l as [|x l IH]; simpl; [done|].
  apply same_files_bind; [apply H | by intros _].
Qed.

Lemma same_files_logging l msg : same_files (logging l msg).
Proof. by intros s. Qed.

Lemma same_files_handlers {A} (h1 h2 : M A) :
  same_files h1 → same_files h2 →
  (∀ e h, except_OperationalError h1 e = Some h → same_files h)
  ∧ (∀ e h, except_Exception h1 e = Some h → same_files h)
  ∧ (∀ e h, except_OperationalError_or_Exception h1 h2 e = Some h → same_files h).
Proof.
  intros H1 H2. unfold except_OperationalError, except_Exception,
    except_OperationalError_or_Exception.
  split_and!; intros e h; destruct (is_OperationalError e); by intros [= <-].
Qed.

Lemma same_files_insert_multiple_orders clk ords rn :
  same_files (insert_multiple_orders clk ords rn).
Proof.
  unfold insert_multiple_orders.
  apply same_files_bind; [|intros _; apply same_files_logging].
  apply same_files_for_each. intros c. unfold getitem.
  destruct (c !! "order-id"); [|done]. destruct (c !! "purchase-date"); [|done].
  destruct (c !! "payments-date"); [|done]. destruct (c !! "buyer-name"); [|done].
  unfold bind at 1, ret at 1. unfold bind at 1, ret at 1.
  unfold bind at 1, ret at 1. unfold bind at 1, ret at 1.
  apply same_files_bind; [|intros _; apply same_files_logging].
  unfold insert_new_order. apply same_files_try_except.
  - apply same_files_bind; [|intros _; apply same_files_logging].
    apply same_files_with_con, same_files_execute.
  - apply same_files_handlers; apply same_files_logging.
Qed.

Lemma flush_old_orders_ok jd clk days s runs :
  con_closed s = false → faults s = [] →
  tbl_program_runs (con_db s) = Some runs →
  _flush_old_orders jd clk days s
  = (inr tt,
     State (delete_runs
              (run_id <$> filter (run_age_exceeds jd (julianday_now_localtime clk) days) runs)
              (con_db s))
       false (files s)
       ((log s ++
         [(DEBUG, "Identified old run ids: {old_run_ids}, added more than {archive_days} days ago")]) ++
        [(INFO, "Deleted old orders (cascade) from orders table where run_id = {del_run_ids}")])
       []).
Proof.
  intros Hopen Hnf Hruns.
  assert (Hnf' : no_fault_next s) by (intros e; by rewrite Hnf).
  pose proof (get_old_runs_ids_ok jd clk days s runs Hopen Hnf' Hruns) as E0.
  set (ids := run_id <$> _) in *. set (s1 := set_log _ _) in E0.
  assert (E1 : for_each ids (λ rid, execute (sql_delete_run rid)) s1
               = (inr tt, set_db (delete_runs ids (con_db s1))
                            (set_faults (drop (length ids) (faults s1)) s1))).
  { apply delete_loop_ok; [done|simpl; by rewrite Hruns|].
    simpl. rewrite Hnf. simpl. rewrite take_nil. constructor. }
  unfold _flush_old_orders. rewrite (bind_inr _ _ _ _ _ E0).
  unfold try_except. unfold bind at 1. unfold with_con. rewrite E1.
  simpl. rewrite Hopen. unfold logging. simpl. rewrite Hnf. simpl.
  rewrite drop_nil. destruct s; simpl in *; by subst.
Qed.

Lemma attempt_insert_runs clk rn d c :
  tbl_program_runs (attempt_insert clk rn d c) = tbl_program_runs d
  ∧ seq_program_runs (attempt_insert clk rn d c) = seq_program_runs d.
Proof.
  unfold attempt_insert, sql_insert_order.
  destruct (tbl_orders d); [|done]. destruct (tbl_program_runs d) eqn:E; [|done].
  destruct rn; [|done]. repeat case_bool_decide; simpl; by rewrite ?E.
Qed.

Lemma foldl_attempt_insert_runs clk rn d l :
  tbl_program_runs (foldl (attempt_insert clk rn) d l) = tbl_program_runs d.
Proof.
  revert d. induction l as [|c l IH]; intros d; simpl; [done|].
  rewrite IH. apply attempt_insert_runs.
Qed.

(** ** A whole ingestion that meets no failure *)

(** The steps of an ingestion that meets no failure, one after the other. *)
Lemma add_orders_to_db_ok
    (julianday : string → option Z) (env : module_env) (clk : clock)
    (self : OrdersDB) (s : state) (runs : list run_row) (ords : list order_row)
    (Hopen : con_closed s = false) (Hnf : faults s = [])
    (Hruns : tbl_program_runs (con_db s) = Some runs)
    (Hords : tbl_orders (con_db s) = Some ords)
    (Hkeys : Forall well_keyed (orders self))
    (Hlater : ∀ r, r ∈ runs → String.ltb (run_time r) (current_timestamp clk) = true)
    (Hdate : split_space_first (current_timestamp clk) = strftime_ymd (today clk))
    (Hpaths : db_backup_b4_path self ≠ db_backup_after_path self) :
  let i := next_run_id (con_db s) runs in
  let new_run := RunRow i (current_timestamp clk) (get_today_weekday_int env None) in
  let d1 := Database (Some (runs ++ [new_run])) (Some ords) i in
  let d2 := foldl (attempt_insert clk (Some i)) d1 (orders self) in
  let ids := run_id <$> filter (run_age_exceeds julianday (julianday_now_localtime clk)
                                  ORDERS_ARCHIVE_DAYS) (runs ++ [new_run]) in
  ∃ s', add_orders_to_db julianday env clk self s = (inr tt, s')
        ∧ con_db s' = delete_runs ids d2
        ∧ files s' !! db_backup_b4_path self = Some (con_db s)
        ∧ files s' !! db_backup_after_path self = Some (con_db s')
        ∧ con_closed s' = true.
Proof.
  intros i new_run d1 d2 ids.
  unfold add_orders_to_db.
  (* the backup before *)
  rewrite (bind_inr _ _ _ _ _ (backup_db_ok _ s Hopen Hnf)).
  set (s1 := State _ _ _ _ _).
  (* the new run *)
  assert (Hnf1 : no_fault_next s1) by (intros e; done).
  rewrite (bind_inr _ _ _ _ _
             (insert_new_run_ok clk (get_today_weekday_int env None) RunTimeTrue
                s1 runs eq_refl Hnf1 Hruns)).
  simpl con_db. rewrite Hords. fold i new_run d1.
  set (s2 := State d1 _ _ _ _).
  (* its identifier *)
  assert (Hnf2 : no_fault_next s2) by (intros e; done).
  rewrite (bind_inr _ _ _ _ _
             (get_current_run_id_ok clk s2 (runs ++ [new_run]) new_run eq_refl Hnf2
                eq_refl (latest_run_snoc runs new_run Hlater) Hdate)).
  set (s3 := set_log _ _).
  (* the orders *)
  destruct (insert_multiple_orders_fold clk (orders self) (Some i) s3 Hkeys eq_refl eq_refl)
    as (s4 & E4 & Hd4 & Hc4 & Hf4).
  pose proof (same_files_insert_multiple_orders clk (orders self) (Some i) s3) as Hfl4.
  rewrite E4 in Hfl4. simpl in Hfl4, Hd4. fold d2 in Hd4.
  change (run_id new_run) with i. rewrite (bind_inr _ _ _ _ _ E4).
  (* the flush *)
  assert (Hr4 : tbl_program_runs (con_db s4) = Some (runs ++ [new_run])).
  { rewrite Hd4. unfold d2. by rewrite foldl_attempt_insert_runs. }
  rewrite (bind_inr _ _ _ _ _
             (flush_old_orders_ok julianday clk ORDERS_ARCHIVE_DAYS s4 _ Hc4 Hf4 Hr4)).
  fold ids. set (s5 := State (delete_runs ids (con_db s4)) _ _ _ _).
  (* the backup after, and the close *)
  rewrite (bind_inr _ _ _ _ _ (backup_db_ok _ s5 eq_refl eq_refl)).
  unfold con_close. eexists. split; [reflexivity|]. simpl.
  rewrite Hd4, Hfl4. split_and!; [done| |by rewrite lookup_insert_eq|done].
  rewrite lookup_insert_ne by done. by rewrite lookup_insert_eq.
Qed.

(** X11.  With the connection open, no outside failure, both tables in
    place, records that carry the four keys, a CURRENT_TIMESTAMP later
    (as text) than every stored run and dated the caller's day, and two
    distinct backup paths, [add_orders_to_db] returns normally: a run
    numbered by AUTOINCREMENT is appended with the weekday of the module's
    default date, each record is tried under that run, the runs older
    than [ORDERS_ARCHIVE_DAYS] are deleted, the "before" file holds the
    store as it was at the call, the "after" file holds the store as it
    is at the end, and the connection is closed. *)
Theorem add_orders_to_db_success
    (julianday : string → option Z) (env : module_env) (clk : clock)
    (self : OrdersDB) (s : state) (runs : list run_row) (ords : list order_row)
    (Hopen : con_closed s = false) (Hnf : faults s = [])
    (Hruns : tbl_program_runs (con_db s) = Some runs)
    (Hords : tbl_orders (con_db s) = Some ords)
    (Hkeys : Forall well_keyed (orders self))
    (Hlater : ∀ r, r ∈ runs → String.ltb (run_time r) (current_timestamp clk) = true)
    (Hdate : split_space_first (current_timestamp clk) = strftime_ymd (today clk))
    (Hpaths : db_backup_b4_path self ≠ db_backup_after_path self) :
  let i := next_run_id (con_db s) runs in
  let new_run := RunRow i (current_timestamp clk) (get_today_weekday_int env None) in
  let d1 := Database (Some (runs ++ [new_run])) (Some ords) i in
  let d2 := foldl (attempt_insert clk (Some i)) d1 (orders self) in
  let ids := run_id <$> filter (run_age_exceeds julianday (julianday_now_localtime clk)
                                  ORDERS_ARCHIVE_DAYS) (runs ++ [new_run]) in
  ∃ s', add_orders_to_db julianday env clk self s = (inr tt, s')
        ∧ con_db s' = delete_runs ids d2
        ∧ files s' !! db_backup_b4_path self = Some (con_db s)
        ∧ files s' !! db_backup_after_path self = Some (con_db s')
        ∧ con_closed s' = true.
Proof.
  by apply add_orders_to_db_ok.
Qed.

(** The store holds the runs of 1 and 2 January with an order each; on
    1 February the order A2b is ingested: it is refused (A2 is stored),
    a third run is opened, the two old runs are flushed with their
    orders, and the two backups hold the store before and after. *)
Lemma add_orders_to_db_success_witness :
  ∃ s', add_orders_to_db julianday_iso (import_module clk_feb1) clk_feb1
          (self_of [order_A2b]) (st_two_runs [])
        = (inr tt, s')
        ∧ con_db s' = Database (Some [RunRow 3 "2024-02-01 08:00:00" 4]) (Some []) 3
        ∧ files s' !! "/out/amzn_orders_b4lrun.db" = Some db_two_runs
        ∧ files s' !! "/out/amzn_orders_lrun.db" = Some (con_db s')
        ∧ con_closed s' = true.
Proof.
  destruct (add_orders_to_db_success julianday_iso (import_module clk_feb1) clk_feb1
              (self_of [order_A2b]) (st_two_runs []) [run_jan1; run_jan2] [row_A1; row_A2])
    as (s' & E & Hd & Hb & Ha & Hc).
  - reflexivity.
  - reflexivity.
  - reflexivity.
  - reflexivity.
  - repeat constructor; eexists; vm_compute; reflexivity.
  - intros r Hr. apply elem_of_cons in Hr as [->|Hr]; [by vm_compute|].
    apply list_elem_of_singleton in Hr as ->. by vm_compute.
  - by vm_compute.
  - by vm_compute.
  - exists s'. split; [exact E|]. split_and!; [|exact Hb|exact Ha|exact Hc].
    rewrite Hd. by vm_compute.
Defined.

(** ** Ingesting a batch, then asking what is new *)

Lemma attempt_insert_stores clk r d c k rows runs :
  tbl_orders d = Some rows → tbl_program_runs d = Some runs →
  r ∈ run_id <$> runs → c !! "order-id" = Some k →
  k ∈ order_ids (attempt_insert clk (Some r) d c).
Proof.
  intros Ho Hr Hin Hk. unfold attempt_insert, sql_insert_order, order_ids.
  rewrite Ho, Hr, Hk. simpl.
  case_bool_decide as Hdup; simpl; [by rewrite Ho|].
  rewrite bool_decide_eq_true_2 by done. simpl.
  rewrite fmap_app. apply elem_of_app. right. by left.
Qed.

Lemma attempt_insert_keeps_ids clk rn d c k :
  k ∈ order_ids d → k ∈ order_ids (attempt_insert clk rn d c).
Proof.
  unfold order_ids. intros Hk.
  destruct (tbl_orders d) as [rows|] eqn:Ho; [|by apply elem_of_nil in Hk].
  destruct (attempt_insert_rows clk rn d c rows Ho) as (more & E & _).
  rewrite E. simpl in *. rewrite fmap_app. apply elem_of_app. by left.
Qed.

Lemma foldl_attempt_insert_stores clk r l d rows runs :
  tbl_orders d = Some rows → tbl_program_runs d = Some runs →
  r ∈ run_id <$> runs →
  ∀ c k, c ∈ l → c !! "order-id" = Some k →
         k ∈ order_ids (foldl (attempt_insert clk (Some r)) d l).
Proof.
  revert d rows. induction l as [|x l IH]; intros d rows Ho Hr Hin c k Hc Hk.
  { by apply elem_of_nil in Hc. }
  destruct (attempt_insert_rows clk (Some r) d x rows Ho) as (more & Ho' & _).
  pose proof (proj1 (attempt_insert_runs clk (Some r) d x)) as Hr'. rewrite Hr in Hr'.
  simpl. apply elem_of_cons in Hc as [->|Hc].
  - assert (Hst : k ∈ order_ids (attempt_insert clk (Some r) d x))
      by (by eapply attempt_insert_stores).
    clear IH Ho' Hr'. revert Hst. generalize (attempt_insert clk (Some r) d x).
    induction l as [|y l IHl]; intros d' Hst; simpl; [done|].
    apply IHl. by apply attempt_insert_keeps_ids.
  - by eapply IH.
Qed.

Lemma filter_none_in {A} (P : A → Prop) `{!∀ x, Decision (P x)} (l : list A) :
  (∀ x, x ∈ l → ¬ P x) → filter P l = [].
Proof.
  induction l as [|a l IH]; intros Hall; [done|].
  rewrite filter_cons_False by (apply Hall; by left).
  apply IH. intros x Hx. apply Hall. by right.
Qed.

(** X12.  A batch that was ingested is no longer new.  With the
    connection open, no outside failure, both tables in place, records
    that carry the four keys and the identifier of a stored run,
    [insert_multiple_orders] returns and every identifier of the batch
    is then stored (it was before, or its row went in); so
    [get_new_orders_only], run on any instance that holds a part of that
    batch and reads that store, returns the empty list. *)
Theorem ingested_batch_is_not_new
    (clk : clock) (ords : list order_dict) (r : Z) (s : state)
    (rows : list order_row) (runs : list run_row)
    (Hopen : con_closed s = false) (Hnf : faults s = [])
    (Hrows : tbl_orders (con_db s) = Some rows)
    (Hruns : tbl_program_runs (con_db s) = Some runs)
    (Hrun : r ∈ run_id <$> runs)
    (Hkeys : Forall well_keyed ords) :
  ∃ s', insert_multiple_orders clk ords (Some r) s = (inr tt, s')
        ∧ (∀ c k, c ∈ ords → c !! "order-id" = Some k → k ∈ order_ids (con_db s'))
        ∧ (∀ self s2,
             orders self ⊆ ords → con_db s2 = con_db s' →
             con_closed s2 = false → no_fault_next s2 →
             ∃ s3, get_new_orders_only self s2 = (inr [], s3)).
Proof.
  destruct (insert_multiple_orders_fold clk ords (Some r) s Hkeys Hopen Hnf)
    as (s' & E & Hd & _).
  assert (Hall : ∀ c k, c ∈ ords → c !! "order-id" = Some k → k ∈ order_ids (con_db s')).
  { rewrite Hd. by eapply foldl_attempt_insert_stores. }
  exists s'. split_and!; [done|done|].
  intros self s2 Hsub Hd2 Hc2 Hf2.
  assert (∃ rows', tbl_orders (con_db s2) = Some rows') as [rows' Hrows'].
  { rewrite Hd2, Hd. clear -Hrows. revert rows Hrows. generalize (con_db s).
    induction ords as [|x l IH]; intros d rows Ho; simpl; [by eexists|].
    destruct (attempt_insert_rows clk (Some r) d x rows Ho) as (more & Ho' & _).
    by eapply IH. }
  assert (Hk2 : Forall has_order_id (orders self)).
  { apply Forall_forall. intros c Hc.
    by destruct (proj1 (Forall_forall _ _) Hkeys c (Hsub c Hc)) as [? _]. }
  destruct (get_new_orders_only_run self s2 rows' Hc2 Hf2 Hrows' Hk2) as (s3 & E3 & _).
  exists s3. rewrite E3. f_equal. f_equal.
  apply filter_none_in. intros c Hc Hnew. unfold is_new in Hnew.
  destruct (c !! "order-id") as [k|] eqn:Hk; [|done].
  apply Hnew. specialize (Hall c k (Hsub c Hc) Hk).
  unfold order_ids in Hall. by rewrite <- Hd2, Hrows' in Hall.
Qed.

Lemma ingested_batch_is_not_new_witness :
  ∃ s' s3, insert_multiple_orders clk_jan1 [order_A1; order_A2] (Some 1) st_A1
           = (inr tt, s')
           ∧ get_new_orders_only (self_of [order_A2; order_A1])
               (fresh_state (con_db s') ∅ [])
             = (inr [], s3).
Proof.
  destruct (ingested_batch_is_not_new clk_jan1 [order_A1; order_A2] 1 st_A1
              [row_A1] [run_jan1]) as (s' & E & _ & H).
  - reflexivity.
  - reflexivity.
  - reflexivity.
  - reflexivity.
  - by left.
  - repeat constructor; eexists; vm_compute; reflexivity.
  - destruct (H (self_of [order_A2; order_A1]) (fresh_state (con_db s') ∅ []))
      as (s3 & E3).
    + intros c Hc. simpl in Hc. apply elem_of_cons in Hc as [->|Hc]; [right; left|].
      apply list_elem_of_singleton in Hc as ->. left.
    + reflexivity.
    + reflexivity.
    + intros e; discriminate.
    + by exists s', s3.
Defined.

(** ** Orders without a run *)

Lemma sql_insert_order_no_run now oid pd pay buyer added rn d :
  rn = None ∨ (∃ r, rn = Some r ∧ r ∉ run_ids d) →
  ∃ e, sql_insert_order now oid pd pay buyer added rn d = inl e.
Proof.
  unfold sql_insert_order, run_ids. intros Hrn.
  destruct (tbl_orders d); [|by eexists].
  destruct (tbl_program_runs d) as [runs|]; [|by eexists].
  destruct Hrn as [->|(r & -> & Hr)]; [by eexists|]. simpl in Hr.
  case_bool_decide; [by eexists|].
  rewrite bool_decide_eq_false_2 by done. by eexists.
Qed.

Lemma insert_new_order_refused clk oid pd pay buyer added rn s e0 :
  sql_insert_order (current_timestamp clk) oid pd pay buyer added rn (con_db s) = inl e0 →
  ∃ s', insert_new_order clk oid pd pay buyer added rn s = (inr tt, s')
        ∧ con_db s' = con_db s.
Proof.
  intros He0. destruct s as [d c fl lg flt]; simpl in *.
  unfold insert_new_order, try_except, bind, with_con, execute, bind,
    check_open, env_fault, run_stmt; simpl.
  destruct c; simpl.
  { by eexists. }
  destruct flt as [|[e|] flt]; simpl; rewrite ?He0; simpl;
    unfold except_OperationalError_or_Exception;
    repeat match goal with
           | |- context [is_OperationalError ?x] => destruct (is_OperationalError x)
           end; simpl; by eexists.
Qed.

(** X13.  No order is stored without a stored run to put it under.
    When the run identifier passed to [insert_multiple_orders] is [None]
    (what [_get_current_run_id] returns when its SELECT fails) or is not
    the identifier of a stored run, the method, on records that carry
    the four keys and in any state, returns normally and leaves the
    store as it was: every row of the batch is refused and dropped. *)
Theorem orders_need_a_stored_run
    (clk : clock) (ords : list order_dict) (rn : option Z) (s : state)
    (Hrn : rn = None ∨ (∃ r, rn = Some r ∧ r ∉ run_ids (con_db s)))
    (Hkeys : Forall well_keyed ords) :
  ∃ s', insert_multiple_orders clk ords rn s = (inr tt, s')
        ∧ con_db s' = con_db s.
Proof.
  unfold insert_multiple_orders.
  match goal with
  | |- context [for_each ords ?b] =>
      destruct (for_each_fold (λ s0, con_db s0 = con_db s) (λ d _, d) ords b)
        with (s := s) as (s1 & E1 & Hd1 & _)
  end; [|done|].
  - intros c s0 Hin Hs0.
    destruct (proj1 (Forall_forall _ _) Hkeys c Hin)
      as ([k Hk] & [pd Hpd] & [pay Hpay] & [b Hb]).
    destruct (sql_insert_order_no_run (current_timestamp clk) k pd pay b
                (strftime_ymd (today clk)) rn (con_db s0)) as [e0 He0];
      [by rewrite Hs0|].
    destruct (insert_new_order_refused clk k pd pay b (strftime_ymd (today clk))
                rn s0 e0 He0) as (s2 & E2 & Hd2).
    unfold getitem. rewrite Hk, Hpd, Hpay, Hb.
    eexists. split; [|split].
    + unfold bind at 1, ret at 1. unfold bind at 1, ret at 1.
      unfold bind at 1, ret at 1. unfold bind at 1, ret at 1.
      rewrite (bind_inr _ _ _ _ _ E2). reflexivity.
    + by simpl.
    + simpl. congruence.
  - rewrite (bind_inr _ _ _ _ _ E1). eexists. split; [reflexivity|]. simpl.
    rewrite Hd1. clear. induction ords as [|c l IH]; [done|]. by simpl.
Qed.

Lemma orders_need_a_stored_run_witness :
  ∃ s', insert_multiple_orders clk_jan1 [order_A2; order_A2b] None st_A1 = (inr tt, s')
        ∧ con_db s' = db_A1.
Proof.
  apply (orders_need_a_stored_run clk_jan1 [order_A2; order_A2b] None st_A1).
  - by left.
  - repeat constructor; eexists; vm_compute; reflexivity.
Defined.

(** ** An instance whose connection is closed *)

Lemma closes_on_return_get_new_orders_only self :
  closes_on_return (get_new_orders_only self).
Proof.
  unfold get_new_orders_only.
  apply closes_on_return_bind; [apply keeps_get_order_ids_in_db|intros ids].
  apply closes_on_return_bind; [|intros new].
  { apply keeps_comprehension_if. intros c.
    apply keeps_bind; [apply keeps_getitem|intros k]. apply keeps_not_in. }
  apply closes_on_return_bind; [apply keeps_logging|intros _].
  apply closes_on_return_bind; [|intros _].
  { destruct ids; [apply keeps_logging|apply keeps_raise]. }
  intros s. by simpl.
Qed.

(** X14.  An instance serves one operation.  When [get_new_orders_only]
    returns, the connection is closed; and on a closed connection
    [get_new_orders_only] and, unless connecting to the backup file
    fails first, [add_orders_to_db] end with [ProgrammingError], the
    store being left as it was. *)
Theorem closed_connection_refuses
    (julianday : string → option Z) (env : module_env) (clk : clock)
    (self : OrdersDB) (s : state) :
  (∀ res s1, get_new_orders_only self s = (inr res, s1) → con_closed s1 = true)
  ∧ (con_closed s = true →
     (∃ s', get_new_orders_only self s = (inl (ProgrammingError closed_msg), s')
            ∧ con_db s' = con_db s)
     ∧ (no_fault_next s →
        ∃ s', add_orders_to_db julianday env clk self s
              = (inl (ProgrammingError closed_msg), s')
              ∧ con_db s' = con_db s)).
Proof.
  split; [|intros Hc; split].
  - intros res s1 E. pose proof (closes_on_return_get_new_orders_only self s) as H.
    by rewrite E in H.
  - unfold get_new_orders_only, _get_order_ids_in_db, try_except, with_con.
    unfold bind at 1. unfold bind at 1.
    rewrite (bind_inl _ _ _ _ _ (execute_closed sql_select_order_ids s Hc)).
    rewrite Hc. simpl. by eexists.
  - intros Hnf. unfold add_orders_to_db, _backup_db, connect_backup, con_backup.
    unfold bind at 1. unfold bind at 1. unfold bind at 1.
    rewrite (no_fault_next_env s Hnf). cbv beta iota.
    unfold bind at 1. unfold bind at 1. unfold check_open. simpl.
    destruct (files s !! db_backup_b4_path self); simpl; rewrite Hc; by eexists.
Qed.

Lemma closed_connection_refuses_witness :
  ∃ new s1 s2,
    get_new_orders_only (self_of [order_A2]) st_A1 = (inr new, s1)
    ∧ add_orders_to_db julianday_iso (import_module clk_jan1) clk_jan1
        (self_of new) s1
      = (inl (ProgrammingError closed_msg), s2)
    ∧ con_db s2 = db_A1.
Proof.
  set (r := get_new_orders_only (self_of [order_A2]) st_A1).
  assert (Er : r = (r.1, r.2)) by by destruct r.
  assert (E1 : r.1 = inr [order_A2]) by reflexivity. rewrite E1 in Er.
  destruct (closed_connection_refuses julianday_iso (import_module clk_jan1) clk_jan1
              (self_of [order_A2]) r.2) as [_ H].
  destruct H as [_ (s2 & E2 & Hd2)]; [reflexivity|intros e; discriminate|].
  exists [order_A2], r.2, s2. split_and!; [exact Er|exact E2|].
  rewrite Hd2. reflexivity.
Defined.

(** ** The three files *)

Lemma append_inj_l (a b1 b2 : string) : a +:+ b1 = a +:+ b2 → b1 = b2.
Proof. induction a as [|c a IH]; simpl; [done|]. intros [= H]. by apply IH. Qed.

Lemma os_path_join_inj (a b1 b2 : string) :
  os_path_join a b1 = os_path_join a b2 → b1 = b2.
Proof.
  unfold os_path_join. destruct a as [|c a]; [done|].
  destruct (ends_with_slash (String c a)); intros H.
  - by apply append_inj_l in H.
  - apply append_inj_l in H. by apply (append_inj_l "/") in H.
Qed.

(** X15.  Whatever the output directory, the live store, the "before"
    backup and the "after" backup of an instance are three different
    paths: a backup never overwrites the live store or the other
    backup. *)
Theorem db_paths_distinct (output_dir : string) (ords : list order_dict) :
  let self := __get_db_paths output_dir ords in
  db_path self ≠ db_backup_b4_path self
  ∧ db_path self ≠ db_backup_after_path self
  ∧ db_backup_b4_path self ≠ db_backup_after_path self.
Proof.
  simpl. split_and!; intros H%os_path_join_inj; discriminate H.
Qed.

(** ** Weekday numbers *)

(** X16.  [get_today_weekday_int] always answers a number from 1 to 7,
    and the day after a date of the same month gets the next number,
    7 being followed by 1. *)
Theorem get_today_weekday_int_cycle
    (env : module_env) (date_arg : option datetime) (d : datetime) :
  1 ≤ get_today_weekday_int env date_arg ≤ 7
  ∧ get_today_weekday_int env
      (Some (DateTime (year d) (month d) (day d + 1) (hour d) (minute d) (second d)))
    = get_today_weekday_int env (Some d) mod 7 + 1.
Proof.
  unfold get_today_weekday_int, weekday. split.
  - pose proof (Z.mod_pos_bound (toordinal (default (date_arg_default env) date_arg) + 6) 7).
    lia.
  - simpl. unfold toordinal. simpl. f_equal.
    set (t := days_before_year (year d) + days_before_month (year d) (month d)).
    replace (t + (day d + 1) + 6) with ((t + day d + 6) + 1) by lia.
    by rewrite <- (Z.add_mod_idemp_l (t + day d + 6) 1 7) by lia.
Qed.

(** ** The flush when the stale runs cannot be read *)

(** X17.  When the SELECT of the stale runs raises [OperationalError],
    [_flush_old_orders] still returns normally: the failure is logged,
    the list of runs is [None], iterating over it raises a [TypeError]
    that is caught and logged as an unknown error, and the store is left
    as it was. *)
Theorem flush_old_orders_select_failure
    (julianday : string → option Z) (clk : clock) (archive_days : Z)
    (s s1 : state) (msg : string)
    (Hopen : con_closed s = false)
    (Hfail : execute (sql_select_old_runs julianday (julianday_now_localtime clk)
                        archive_days) s
             = (inl (OperationalError msg), s1)) :
  ∃ s', _flush_old_orders julianday clk archive_days s = (inr tt, s')
        ∧ con_db s' = con_db s
        ∧ log s' = log s ++
            [(ERROR, "Failed to retrieve ids from program_runs table. Syntax error: {e}");
             (ERROR, "Unknown error while deleting orders to orders table based on run_ids {del_run_ids}. Error: {e}")].
Proof.
  destruct (execute_inl_state _ _ _ _ Hfail) as (Hc1 & Hd1 & Hl1 & _).
  assert (E0 : __get_old_runs_ids julianday clk archive_days s
               = (inr None,
                  set_log (log s1 ++
                           [(ERROR, "Failed to retrieve ids from program_runs table. Syntax error: {e}")])
                    (set_db (con_db s) s1))).
  { unfold __get_old_runs_ids, try_except. unfold bind at 1. unfold with_con.
    rewrite Hfail, Hc1, Hopen. simpl. by unfold bind, logging, ret. }
  unfold _flush_old_orders. rewrite (bind_inr _ _ _ _ _ E0).
  unfold try_except, bind, with_con, raise, logging. simpl. rewrite Hc1, Hopen. simpl.
  eexists. split; [reflexivity|]. simpl. by rewrite Hl1, <- app_assoc.
Qed.

(** The table of runs is missing. *)
Lemma flush_old_orders_select_failure_witness :
  ∃ s', _flush_old_orders julianday_iso clk_jan16 14
          (fresh_state (Database None (Some [row_A1]) 0) ∅ [])
        = (inr tt, s')
        ∧ con_db s' = Database None (Some [row_A1]) 0.
Proof.
  destruct (flush_old_orders_select_failure julianday_iso clk_jan16 14
              (fresh_state (Database None (Some [row_A1]) 0) ∅ [])
              (fresh_state (Database None (Some [row_A1]) 0) ∅ [])
              "no such table: program_runs")
    as (s' & E & Hd & _); [reflexivity|reflexivity|].
  by exists s'.
Defined.

(** ** The current run of a store without runs *)

(** X18.  On a store whose table of runs is empty, with the connection
    open and the SELECT not failing, [_get_current_run_id] ends with a
    [TypeError] (there is no row to unpack), which its [except] clause
    does not catch; the store is left as it was. *)
Theorem get_current_run_id_no_runs
    (clk : clock) (s : state)
    (Hopen : con_closed s = false) (Hnf : no_fault_next s)
    (Hruns : tbl_program_runs (con_db s) = Some []) :
  ∃ msg s', _get_current_run_id clk s = (inl (TypeError msg), s')
            ∧ con_db s' = con_db s ∧ con_closed s' = false.
Proof.
  assert (E : execute sql_select_latest_run s
              = (inr None, set_db (con_db s) (set_faults (tail (faults s)) s))).
  { apply execute_ok; [done|done|]. unfold sql_select_latest_run. by rewrite Hruns. }
  unfold _get_current_run_id, try_except, with_con.
  rewrite (bind_inr _ _ _ _ _ E). unfold raise. simpl. rewrite Hopen. simpl.
  do 2 eexists. split; [reflexivity|]. by simpl.
Qed.

Lemma get_current_run_id_no_runs_witness :
  ∃ msg s', _get_current_run_id clk_jan1 (st_schema []) = (inl (TypeError msg), s')
            ∧ con_db s' = db_schema ∧ con_closed s' = false.
Proof.
  apply (get_current_run_id_no_runs clk_jan1 (st_schema []));
    [reflexivity | intros e; discriminate | reflexivity].
Defined.

(** ** A store without orders *)

(** X19.  On a store whose table of orders is empty (the first run),
    with the connection open, the SELECT not failing and every candidate
    carrying an ['order-id'], [get_new_orders_only] returns the whole
    batch, unchanged. *)
Theorem get_new_orders_only_empty_store
    (self : OrdersDB) (s : state)
    (Hopen : con_closed s = false) (Hnf : no_fault_next s)
    (Hrows : tbl_orders (con_db s) = Some [])
    (Hkeys : Forall has_order_id (orders self)) :
  ∃ s', get_new_orders_only self s = (inr (orders self), s')
        ∧ con_closed s' = true.
Proof.
  destruct (get_new_orders_only_run self s [] Hopen Hnf Hrows Hkeys) as (s' & E & _ & Hc).
  exists s'. split; [|done]. rewrite E. f_equal. f_equal.
  apply filter_all_in. intros c Hc'. unfold is_new.
  destruct (proj1 (Forall_forall _ _) Hkeys c Hc') as [k ->]. apply not_elem_of_nil.
Qed.

Lemma get_new_orders_only_empty_store_witness :
  ∃ s', get_new_orders_only (self_of [order_A1; order_A2; order_A2b]) (st_schema [])
        = (inr [order_A1; order_A2; order_A2b], s')
        ∧ con_closed s' = true.
Proof.
  apply (get_new_orders_only_empty_store (self_of [order_A1; order_A2; order_A2b])
           (st_schema []));
    [reflexivity | intros e; discriminate | reflexivity
    | repeat constructor; eexists; vm_compute; reflexivity].
Defined.

(** ** What an ingestion leaves behind *)

Lemma attempt_insert_more clk i d c rows :
  tbl_orders d = Some rows →
  ∃ more, tbl_orders (attempt_insert clk (Some i) d c) = Some (rows ++ more)
          ∧ Forall (λ o, run o = i) more.
Proof.
  intros Ho. unfold attempt_insert, sql_insert_order. rewrite Ho.
  destruct (tbl_program_runs d).
  2:{ exists []. by rewrite app_nil_r. }
  case_bool_decide.
  { exists []. by rewrite app_nil_r. }
  case_bool_decide; simpl.
  - eexists. split; [reflexivity|]. by repeat constructor.
  - exists []. by rewrite app_nil_r.
Qed.

Lemma foldl_attempt_insert_more clk i l d rows :
  tbl_orders d = Some rows →
  ∃ more, tbl_orders (foldl (attempt_insert clk (Some i)) d l) = Some (rows ++ more)
          ∧ Forall (λ o, run o = i) more.
Proof.
  revert d rows. induction l as [|c l IH]; intros d rows Ho; simpl.
  { exists []. by rewrite app_nil_r. }
  destruct (attempt_insert_more clk i d c rows Ho) as (m1 & Ho1 & H1).
  destruct (IH _ _ Ho1) as (m2 & Ho2 & H2).
  exists (m1 ++ m2). rewrite app_assoc. split; [done|]. by apply Forall_app.
Qed.

(** X20.  What an ingestion that meets no failure leaves behind.  With
    the connection open, no outside failure, both tables in place,
    records that carry the four keys, a CURRENT_TIMESTAMP later (as
    text) than every stored run and dated the caller's day, and two
    distinct backup paths: if the run just opened is not itself older
    than [ORDERS_ARCHIVE_DAYS], then after [add_orders_to_db] that run is
    stored, and every record of the batch whose identifier was not
    stored before the call is stored under it: the flush at the end does
    not take away what the call just wrote. *)
Theorem new_orders_survive_their_flush
    (julianday : string → option Z) (env : module_env) (clk : clock)
    (self : OrdersDB) (s : state) (runs : list run_row) (ords : list order_row)
    (Hopen : con_closed s = false) (Hnf : faults s = [])
    (Hruns : tbl_program_runs (con_db s) = Some runs)
    (Hords : tbl_orders (con_db s) = Some ords)
    (Hkeys : Forall well_keyed (orders self))
    (Hlater : ∀ r, r ∈ runs → String.ltb (run_time r) (current_timestamp clk) = true)
    (Hdate : split_space_first (current_timestamp clk) = strftime_ymd (today clk))
    (Hpaths : db_backup_b4_path self ≠ db_backup_after_path self)
    (Hfresh : ¬ run_age_exceeds julianday (julianday_now_localtime clk)
                  ORDERS_ARCHIVE_DAYS
                  (RunRow (next_run_id (con_db s) runs) (current_timestamp clk)
                     (get_today_weekday_int env None))) :
  let i := next_run_id (con_db s) runs in
  let new_run := RunRow i (current_timestamp clk) (get_today_weekday_int env None) in
  ∃ s', add_orders_to_db julianday env clk self s = (inr tt, s')
        ∧ new_run ∈ default [] (tbl_program_runs (con_db s'))
        ∧ (∀ c k, c ∈ orders self → c !! "order-id" = Some k →
                  k ∉ order_id <$> ords →
                  ∃ o, o ∈ default [] (tbl_orders (con_db s'))
                       ∧ order_id o = k ∧ run o = i).
Proof.
  intros i new_run.
  destruct (add_orders_to_db_ok julianday env clk self s runs ords
              Hopen Hnf Hruns Hords Hkeys Hlater Hdate Hpaths)
    as (s' & E & Hd & _).
  fold i new_run in Hd.
  set (d1 := Database (Some (runs ++ [new_run])) (Some ords) i) in Hd.
  set (d2 := foldl (attempt_insert clk (Some i)) d1 (orders self)) in Hd.
  set (ids := run_id <$> _) in Hd.
  assert (Hr2 : tbl_program_runs d2 = Some (runs ++ [new_run]))
    by (unfold d2; by rewrite foldl_attempt_insert_runs).
  assert (Hi : i ∉ ids).
  { intros [r [Heq [Hst Hr]%list_elem_of_filter]]%list_elem_of_fmap.
    apply elem_of_app in Hr as [Hr|Hr%list_elem_of_singleton].
    - pose proof (next_run_id_fresh (con_db s) runs r Hr). fold i in H. lia.
    - subst r. by apply Hfresh. }
  destruct (foldl_attempt_insert_more clk i (orders self) d1 ords eq_refl)
    as (more & Ho2 & Hmore). fold d2 in Ho2.
  exists s'. split; [done|]. rewrite Hd, (delete_runs_spec ids d2 _ Hr2). simpl.
  split.
  - apply list_elem_of_filter. split; [done|]. apply elem_of_app. right. by left.
  - intros c k Hc Hk Hnew.
    assert (Hin : k ∈ order_ids d2).
    { unfold d2. eapply (foldl_attempt_insert_stores clk i (orders self) d1 ords
                           (runs ++ [new_run])); try done.
      rewrite fmap_app. apply elem_of_app. right. by left. }
    unfold order_ids in Hin. rewrite Ho2 in Hin. simpl in Hin.
    apply list_elem_of_fmap in Hin as (o & -> & Ho).
    apply elem_of_app in Ho as [Ho|Ho].
    { destruct Hnew. by apply list_elem_of_fmap_2. }
    pose proof (proj1 (Forall_forall _ _) Hmore o Ho) as Hrun.
    exists o. rewrite Ho2. simpl. split_and!; [|done|done].
    apply list_elem_of_filter. split; [by rewrite Hrun|].
    apply elem_of_app. by right.
Qed.

(** On 1 February the two old runs are flushed; the new order A9 and
    the run it came with stay. *)
Lemma new_orders_survive_their_flush_witness :
  ∃ s' o, add_orders_to_db julianday_iso (import_module clk_feb1) clk_feb1
            (self_of [order_A2b; <["order-id" := "A9"]> order_A1]) (st_two_runs [])
          = (inr tt, s')
          ∧ o ∈ default [] (tbl_orders (con_db s'))
          ∧ order_id o = "A9" ∧ run o = 3.
Proof.
  destruct (new_orders_survive_their_flush julianday_iso (import_module clk_feb1) clk_feb1
              (self_of [order_A2b; <["order-id" := "A9"]> order_A1]) (st_two_runs [])
              [run_jan1; run_jan2] [row_A1; row_A2])
    as (s' & E & _ & H).
  - reflexivity.
  - reflexivity.
  - reflexivity.
  - reflexivity.
  - constructor; [|constructor; [|constructor]];
      (split_and!; eexists; vm_compute; reflexivity).
  - intros r Hr. apply elem_of_cons in Hr as [->|Hr]; [by vm_compute|].
    apply list_elem_of_singleton in Hr as ->. by vm_compute.
  - by vm_compute.
  - by vm_compute.
  - vm_compute. intros H. discriminate H.
  - destruct (H (<["order-id" := "A9"]> order_A1) "A9") as (o & Ho & Hk & Hr).
    + right. left.
    + by vm_compute.
    + simpl. intros Hin. apply elem_of_cons in Hin as [Hin|Hin]; [discriminate|].
      apply list_elem_of_singleton in Hin. discriminate.
    + exists s', o. split_and!; [exact E|exact Ho|exact Hk|exact Hr].
Defined.

(** ** Storing one order and reading it back *)

(** X21.  With the connection open, no outside failure, both tables in
    place, an identifier not yet stored and the identifier of a stored
    run, [insert_new_order] returns having appended exactly the row made
    of its arguments, with CURRENT_TIMESTAMP as [last_update]; and
    [_get_order_ids_in_db], called next, returns the identifiers stored
    before followed by the new one. *)
Theorem insert_new_order_then_read
    (clk : clock) (oid pd pay buyer added : string) (r : Z) (s : state)
    (rows : list order_row) (runs : list run_row)
    (Hopen : con_closed s = false) (Hnf : faults s = [])
    (Hrows : tbl_orders (con_db s) = Some rows)
    (Hruns : tbl_program_runs (con_db s) = Some runs)
    (Hfresh : oid ∉ order_id <$> rows)
    (Hrun : r ∈ run_id <$> runs) :
  ∃ s' s'',
    insert_new_order clk oid pd pay buyer added (Some r) s = (inr tt, s')
    ∧ tbl_orders (con_db s')
      = Some (rows ++ [OrderRow oid pd pay buyer (current_timestamp clk) added r])
    ∧ tbl_program_runs (con_db s') = Some runs
    ∧ _get_order_ids_in_db s' = (inr (Some ((order_id <$> rows) ++ [oid])), s'').
Proof.
  destruct (insert_new_order_open clk oid pd pay buyer added (Some r) s Hopen Hnf)
    as (s' & E & Hd & Hc & Hf).
  unfold sql_insert_order in Hd. rewrite Hrows, Hruns in Hd.
  rewrite bool_decide_eq_false_2, bool_decide_eq_true_2 in Hd by done.
  assert (Ho' : tbl_orders (con_db s')
                = Some (rows ++ [OrderRow oid pd pay buyer (current_timestamp clk) added r]))
    by (by rewrite Hd).
  assert (Hf' : no_fault_next s') by (intros e; by rewrite Hf).
  destruct (get_order_ids_in_db_ok s' _ Hc Hf' Ho') as (s'' & E'' & _).
  exists s', s''. split_and!; [done|done|by rewrite Hd|].
  rewrite E''. by rewrite fmap_app.
Qed.

Lemma insert_new_order_then_read_witness :
  ∃ s' s'',
    insert_new_order clk_jan1 "A2" "2024-01-01" "2024-01-03" "Eve" "2024-01-01"
      (Some 1) st_A1 = (inr tt, s')
    ∧ _get_order_ids_in_db s' = (inr (Some ["A1"; "A2"]), s'').
Proof.
  destruct (insert_new_order_then_read clk_jan1 "A2" "2024-01-01" "2024-01-03" "Eve"
              "2024-01-01" 1 st_A1 [row_A1] [run_jan1])
    as (s' & s'' & E & _ & _ & E'').
  - reflexivity.
  - reflexivity.
  - reflexivity.
  - reflexivity.
  - simpl. intros H. apply list_elem_of_singleton in H. discriminate.
  - by left.
  - exists s', s''. split; [exact E|exact E''].
Defined.

(** ** What the log says of refused rows *)

Lemma insert_new_order_refused_log clk oid pd pay buyer added rn s e0 :
  sql_insert_order (current_timestamp clk) oid pd pay buyer added rn (con_db s) = inl e0 →
  ∃ s' m, insert_new_order clk oid pd pay buyer added rn s = (inr tt, s')
          ∧ con_db s' = con_db s ∧ log s' = log s ++ [(ERROR, m)].
Proof.
  intros He0. destruct s as [d c fl lg flt]; simpl in *.
  unfold insert_new_order, try_except, bind, with_con, execute, bind,
    check_open, env_fault, run_stmt; simpl.
  destruct c; simpl.
  { by do 2 eexists. }
  destruct flt as [|[e|] flt]; simpl; rewrite ?He0; simpl;
    unfold except_OperationalError_or_Exception;
    repeat match goal with
           | |- context [is_OperationalError ?x] => destruct (is_OperationalError x)
           end; simpl; by do 2 eexists.
Qed.

(** X22.  The log of [insert_multiple_orders] does not tell what was
    stored.  When the run identifier is [None] or names no stored run,
    every row of a batch of records with the four keys is refused and
    the store is left as it was; yet, in any state, the log gets for
    each record an ERROR record followed by the DEBUG record
    "Successfully added order ...", and at the end the INFO record
    "... new orders were successfully added ...". *)
Theorem refused_rows_logged_as_added
    (clk : clock) (ords : list order_dict) (rn : option Z) (s : state)
    (Hrn : rn = None ∨ (∃ r, rn = Some r ∧ r ∉ run_ids (con_db s)))
    (Hkeys : Forall well_keyed ords) :
  ∃ s' errs,
    insert_multiple_orders clk ords rn s = (inr tt, s')
    ∧ con_db s' = con_db s
    ∧ length errs = length ords
    ∧ log s'
      = log s
        ++ concat ((λ m, [(ERROR, m);
                          (DEBUG, "Successfully added order: {order_id} to database. Buyer: {buyer}, purchase_date {purchase_date}")])
                     <$> errs)
        ++ [(INFO, "{len(orders)} new orders were successfully added to database at run: {run_id}")].
Proof.
  unfold insert_multiple_orders.
  match goal with
  | |- context [for_each ords ?b] => set (body := b)
  end.
  assert (Hloop : ∀ s0, con_db s0 = con_db s →
            ∃ s1 errs, for_each ords body s0 = (inr tt, s1)
                       ∧ con_db s1 = con_db s
                       ∧ length errs = length ords
                       ∧ log s1 = log s0 ++
                           concat ((λ m, [(ERROR, m);
                                          (DEBUG, "Successfully added order: {order_id} to database. Buyer: {buyer}, purchase_date {purchase_date}")])
                                     <$> errs)).
  { induction Hkeys as [|c l Hc _ IH]; intros s0 Hs0.
    - exists s0, []. simpl. by rewrite app_nil_r.
    - destruct Hc as ([k Hk] & [pd Hpd] & [pay Hpay] & [b Hb]).
      destruct (sql_insert_order_no_run (current_timestamp clk) k pd pay b
                  (strftime_ymd (today clk)) rn (con_db s0)) as [e0 He0];
        [by rewrite Hs0|].
      destruct (insert_new_order_refused_log clk k pd pay b (strftime_ymd (today clk))
                  rn s0 e0 He0) as (s2 & m & E2 & Hd2 & Hl2).
      set (s3 := set_log
                   (log s2 ++
                    [(DEBUG, "Successfully added order: {order_id} to database. Buyer: {buyer}, purchase_date {purchase_date}")])
                   s2).
      destruct (IH s3) as (s1 & errs & E1 & Hd1 & Hlen & Hl1).
      { simpl. congruence. }
      exists s1, (m :: errs). split_and!; [|done|by simpl; rewrite Hlen|].
      + cbn [for_each]. rewrite (bind_inr (body c) _ s0 tt s3); [exact E1|].
        unfold body, getitem. rewrite Hk, Hpd, Hpay, Hb.
        unfold bind at 1, ret at 1. unfold bind at 1, ret at 1.
        unfold bind at 1, ret at 1. unfold bind at 1, ret at 1.
        by rewrite (bind_inr _ _ _ _ _ E2).
      + rewrite Hl1. simpl. rewrite Hl2. by rewrite <- !app_assoc. }
  destruct (Hloop s eq_refl) as (s1 & errs & E1 & Hd1 & Hlen & Hl1).
  rewrite (bind_inr _ _ _ _ _ E1). unfold logging.
  do 2 eexists. split_and!; [reflexivity|done|exact Hlen|].
  simpl. by rewrite Hl1, <- app_assoc.
Qed.

Lemma refused_rows_logged_as_added_witness :
  ∃ s' e1 e2,
    insert_multiple_orders clk_jan1 [order_A2; order_A2b] None st_A1 = (inr tt, s')
    ∧ con_db s' = db_A1
    ∧ log s'
      = [(ERROR, e1);
         (DEBUG, "Successfully added order: {order_id} to database. Buyer: {buyer}, purchase_date {purchase_date}");
         (ERROR, e2);
         (DEBUG, "Successfully added order: {order_id} to database. Buyer: {buyer}, purchase_date {purchase_date}");
         (INFO, "{len(orders)} new orders were successfully added to database at run: {run_id}")].
Proof.
  destruct (refused_rows_logged_as_added clk_jan1 [order_A2; order_A2b] None st_A1)
    as (s' & errs & E & Hd & Hlen & Hl).
  - by left.
  - constructor; [|constructor; [|constructor]];
      (split_and!; eexists; vm_compute; reflexivity).
  - destruct errs as [|e1 [|e2 [|e3 errs]]]; try discriminate Hlen.
    exists s', e1, e2. split_and!; [exact E|exact Hd|exact Hl].
Defined.
